(** * oerplib.connector: a shallow embedding and its verified properties

    The module [oerplib/connector.py] offers a factory, [get_connector],
    and two connector classes that talk to an OpenERP server, one over
    XML-RPC and one over NetRPC.  Both classes implement [login],
    [execute], [exec_workflow] and [report].

    The embedding follows the Python text method by method.  Python
    values are a small inductive type, exceptions are an inductive type
    with the class tests the [except] clauses perform, and the methods
    live in a state-and-exception monad that also records, in order, the
    calls made on the transports and on [time.sleep].  The transports
    themselves ([xmlrpclib.ServerProxy] and [netrpc.NetRPC]) are outside
    the module: they are an environment that decides, call by call,
    whether a value comes back or an exception is raised. *)

From Stdlib Require Import ZArith List String Ascii Bool Lia.
Import ListNotations.

Local Open Scope string_scope.
Local Open Scope Z_scope.

(** ** Python values *)

#[local] Set Warnings "-register-all".

Inductive pyval : Type :=
| VNone
| VBool (b : bool)
| VInt (z : Z)
| VStr (s : string)
| VList (l : list pyval)
| VTuple (l : list pyval)
| VDict (d : list (string * pyval)).

(** Truth value testing, as [not state] and [a or b] use it. *)
Definition truthy (v : pyval) : bool :=
  match v with
  | VNone => false
  | VBool b => b
  | VInt z => negb (z =? 0)
  | VStr s => negb (String.eqb s "")
  | VList l => match l with [] => false | _ :: _ => true end
  | VTuple l => match l with [] => false | _ :: _ => true end
  | VDict d => match d with [] => false | _ :: _ => true end
  end.

(** [a or b] *)
Definition py_or (a b : pyval) : pyval := if truthy a then a else b.

Fixpoint assoc {A : Type} (k : string) (d : list (string * A)) : option A :=
  match d with
  | [] => None
  | (k', v) :: d' => if String.eqb k k' then Some v else assoc k d'
  end.

(** ** Text of messages

    [repr], [unicode] and [str.format] are kept symbolic: a message
    records which conversion was applied to which values. *)

Inductive pymsg : Type :=
| MLit (s : string)                          (* a string literal *)
| MVal (v : pyval)                           (* a value passed as it is *)
| MRepr (v : pyval)                          (* repr(v) *)
| MUnicode (detail : pyval)                  (* unicode(exc) *)
| MFormat (template : string) (args : list pyval).   (* template.format( *args ) *)

(** ** Exceptions *)

Inductive pyexc : Type :=
(* raised by the transports and by the interpreter *)
| SocketError (strerror : pyval)                         (* socket.error *)
| Fault (faultCode faultString : pyval)                  (* xmlrpclib.Fault *)
| ProtocolError (url : string) (errcode : Z) (errmsg : string)
                                                         (* xmlrpclib.ProtocolError *)
| ResponseError                                          (* xmlrpclib.ResponseError *)
| NetRPCError (detail : pyval)                           (* netrpc.NetRPCError *)
| AttributeError (attr : string)
| KeyError (key : string)
| TypeError
| ValueError
(* declared at the end of connector.py, all derived from BaseException *)
| ConnectorError (m : pymsg)
| LoginError (m : pymsg)
| ExecuteError (m : pymsg)
| ExecWorkflowError (m : pymsg)
| ExecReportError (m : pymsg).

(** The class tests of the [except] clauses. *)

Definition is_socket_error (e : pyexc) : bool :=
  match e with SocketError _ => true | _ => false end.

Definition is_Fault (e : pyexc) : bool :=
  match e with Fault _ _ => true | _ => false end.

(** [xmlrpclib.Error] is the base class of [Fault], [ProtocolError] and
    [ResponseError]. *)
Definition is_xmlrpclib_Error (e : pyexc) : bool :=
  match e with
  | Fault _ _ | ProtocolError _ _ _ | ResponseError => true
  | _ => false
  end.

Definition is_NetRPCError (e : pyexc) : bool :=
  match e with NetRPCError _ => true | _ => false end.

(** [except Exception]: the built-in exceptions, [socket.error] and the
    [xmlrpclib] errors derive from [Exception]; the five errors of this
    module derive from [BaseException] directly.  [netrpc.NetRPCError] is
    declared in another module, its base class is not visible here and it
    is not claimed to be caught. *)
Definition is_Exception (e : pyexc) : bool :=
  match e with
  | SocketError _ | Fault _ _ | ProtocolError _ _ _ | ResponseError
  | AttributeError _ | KeyError _ | TypeError | ValueError => true
  | NetRPCError _
  | ConnectorError _ | LoginError _ | ExecuteError _
  | ExecWorkflowError _ | ExecReportError _ => false
  end.

(** Only [Fault] instances carry [faultCode] and [faultString]. *)
Definition faultCode_of (e : pyexc) : option pyval :=
  match e with Fault c _ => Some c | _ => None end.

Definition faultString_of (e : pyexc) : option pyval :=
  match e with Fault _ s => Some s | _ => None end.

Definition strerror_of (e : pyexc) : option pyval :=
  match e with SocketError s => Some s | _ => None end.

(** The kind of error each operation announces in its docstring. *)
Inductive operation : Type := OpLogin | OpExecute | OpExecWorkflow | OpReport.

Definition has_kind (op : operation) (e : pyexc) : bool :=
  match op, e with
  | OpLogin, LoginError _ => true
  | OpExecute, ExecuteError _ => true
  | OpExecWorkflow, ExecWorkflowError _ => true
  | OpReport, ExecReportError _ => true
  | _, _ => false
  end.

(** ** Results, the connector object and the environment *)

Inductive outcome (A : Type) : Type :=
| Return (a : A)
| Raise (e : pyexc).
Arguments Return {A} a.
Arguments Raise {A} e.

Inductive variant : Type := XmlRpc | NetRpc.

(** The attributes of a connector instance.  [database] exists only once
    [login] has assigned it; [sock] is the NetRPC object of the last
    request, named by its rank among the remote calls. The three
    [ServerProxy] handles of the XML-RPC class are fixed by [url]. *)
Record connector : Type := mkConnector {
  cls : variant;
  server : pyval;
  port : pyval;
  url : option pymsg;
  database : option pyval;
  sock : option nat
}.

Inductive endpoint : Type := Object | Report | Common.

(** What the methods do to the outside, in order. *)
Inductive event : Type :=
| XmlCall (ep : endpoint) (method : string) (args : list pyval)
| NetNew
| NetConnect (host prt : pyval)
| NetSend (msg : pyval)
| NetReceive
| NetDisconnect
| Sleep (seconds : Z).

(** The environment answers each transport call.  The first argument is
    the rank of the remote call since the start of the run. *)
Record env : Type := mkEnv {
  xml_reply : nat -> endpoint -> string -> list pyval -> outcome pyval;
  net_connect : nat -> pyval -> pyval -> option pyexc;
  net_send : nat -> pyval -> option pyexc;
  net_receive : nat -> outcome pyval;
  net_disconnect : nat -> option pyexc
}.

Record state : Type := mkState {
  self : connector;
  clock : nat
}.

(** ** The monad of methods *)

Record run (A : Type) : Type := mkRun {
  out : outcome A;
  final : state;
  events : list event
}.
Arguments mkRun {A} out final events.
Arguments out {A} r.
Arguments final {A} r.
Arguments events {A} r.

Definition M (A : Type) : Type := env -> state -> run A.

Definition ret {A} (a : A) : M A := fun _ s => mkRun (Return a) s [].

Definition raise {A} (e : pyexc) : M A := fun _ s => mkRun (Raise e) s [].

Definition after {A B} (r : run A) (r' : run B) : run B :=
  mkRun (out r') (final r') (events r ++ events r').

Definition bind {A B} (m : M A) (k : A -> M B) : M B :=
  fun E s =>
    let r := m E s in
    match out r with
    | Return a => after r (k a E (final r))
    | Raise e => mkRun (Raise e) (final r) (events r)
    end.

(** [try: m  except ...:] with the clauses given as a partial function:
    [None] when no clause matches, and the exception goes on. *)
Definition try_except {A} (m : M A) (handlers : pyexc -> option (M A)) : M A :=
  fun E s =>
    let r := m E s in
    match out r with
    | Return _ => r
    | Raise e =>
        match handlers e with
        | Some h => after r (h E (final r))
        | None => r
        end
    end.

Declare Scope py_scope.
Delimit Scope py_scope with py.
Notation "x <- c1 ;; c2" := (bind c1 (fun x => c2))
  (at level 61, c1 at next level, right associativity) : py_scope.
Notation "c1 ;; c2" := (bind c1 (fun _ => c2))
  (at level 61, right associativity) : py_scope.
Local Open Scope py_scope.

Definition emit (ev : event) : M unit := fun _ s => mkRun (Return tt) s [ev].

Definition tick (s : state) : state := mkState (self s) (S (clock s)).

(** [self.database], an attribute that may not exist yet. *)
Definition get_database : M pyval :=
  fun _ s =>
    match database (self s) with
    | Some d => mkRun (Return d) s []
    | None => mkRun (Raise (AttributeError "database")) s []
    end.

Definition set_database (d : pyval) : M unit :=
  fun _ s =>
    let c := self s in
    mkRun (Return tt)
          (mkState (mkConnector (cls c) (server c) (port c) (url c) (Some d) (sock c))
                   (clock s))
          [].

Definition get_server : M pyval := fun _ s => mkRun (Return (server (self s))) s [].
Definition get_port : M pyval := fun _ s => mkRun (Return (port (self s))) s [].

(** [time.sleep(seconds)] *)
Definition time_sleep (seconds : Z) : M unit := emit (Sleep seconds).

(** [v[key]] *)
Definition getitem (v : pyval) (key : string) : M pyval :=
  match v with
  | VDict d =>
      match assoc key d with
      | Some x => ret x
      | None => raise (KeyError key)
      end
  | _ => raise TypeError
  end.

(** ** [int(port)]

    [int] accepts integers and booleans, parses strings, and rejects any
    other kind of value with [TypeError].  For a string the grammar of
    Python 2 in base 10 is modelled on ASCII text: blanks, an optional
    sign, blanks, at least one decimal digit, blanks. *)

Inductive int_result : Type :=
| IntOk (z : Z)
| IntValueError
| IntTypeError.

Definition is_space (c : ascii) : bool :=
  let n := nat_of_ascii c in
  (Nat.eqb n 32 || (Nat.leb 9 n && Nat.leb n 13))%bool.

Definition digit_of (c : ascii) : option Z :=
  let n := nat_of_ascii c in
  if (Nat.leb 48 n && Nat.leb n 57)%bool then Some (Z.of_nat (n - 48)) else None.

Fixpoint skip_spaces (s : string) : string :=
  match s with
  | String c s' => if is_space c then skip_spaces s' else s
  | EmptyString => s
  end.

(** Reads digits into [acc]; [seen] tells whether one was read. The text
    after the digits may only hold blanks. *)
Fixpoint read_digits (s : string) (seen : bool) (acc : Z) : option Z :=
  match s with
  | EmptyString => if seen then Some acc else None
  | String c s' =>
      match digit_of c with
      | Some d => read_digits s' true (10 * acc + d)
      | None =>
          if seen then
            match skip_spaces s with
            | EmptyString => Some acc
            | String _ _ => None
            end
          else None
      end
  end.

Definition int_of_str (s : string) : option Z :=
  match skip_spaces s with
  | String "-"%char s' => option_map Z.opp (read_digits (skip_spaces s') false 0)
  | String "+"%char s' => read_digits (skip_spaces s') false 0
  | s' => read_digits s' false 0
  end.

Definition py_int (v : pyval) : int_result :=
  match v with
  | VInt z => IntOk z
  | VBool b => IntOk (if b then 1 else 0)
  | VStr s => match int_of_str s with Some z => IntOk z | None => IntValueError end
  | VNone | VList _ | VTuple _ | VDict _ => IntTypeError
  end.

(** ** The classes *)

Module _Connector.

(** [_Connector.__init__(self, server, port)], for an instance of
    class [c]: the port is tested with [int] and stored as given. *)
Definition __init__ (c : variant) (server port : pyval) : outcome connector :=
  match py_int port with
  | IntOk _ => Return (mkConnector c server port None None None)
  | IntValueError =>
      Raise (ConnectorError
               (MFormat "The port '{0}' is invalid. An integer is required." [port]))
  | IntTypeError => Raise TypeError
  end.

End _Connector.

(** ** The transports *)

(** A method call on one of the [ServerProxy] handles: one blocking
    remote call, answered by the environment. *)
Definition xml_call (ep : endpoint) (method : string) (args : list pyval) : M pyval :=
  fun E s => mkRun (xml_reply E (clock s) ep method args) (tick s) [XmlCall ep method args].

(** [self.sock = netrpc.NetRPC()] *)
Definition sock_new : M unit :=
  fun _ s =>
    let c := self s in
    mkRun (Return tt)
          (mkState (mkConnector (cls c) (server c) (port c) (url c) (database c)
                                (Some (clock s)))
                   (S (clock s)))
          [NetNew].

Definition get_sock : M nat :=
  fun _ s =>
    match sock (self s) with
    | Some n => mkRun (Return n) s []
    | None => mkRun (Raise (AttributeError "sock")) s []
    end.

Definition completes (r : option pyexc) : outcome unit :=
  match r with
  | None => Return tt
  | Some e => Raise e
  end.

(** The four methods of a [netrpc.NetRPC] object. *)
Definition sock_connect (host prt : pyval) : M unit :=
  n <- get_sock ;;
  fun E s => mkRun (completes (net_connect E n host prt)) s [NetConnect host prt].

Definition sock_send (msg : pyval) : M unit :=
  n <- get_sock ;;
  fun E s => mkRun (completes (net_send E n msg)) s [NetSend msg].

Definition sock_receive : M pyval :=
  n <- get_sock ;;
  fun E s => mkRun (net_receive E n) s [NetReceive].

Definition sock_disconnect : M unit :=
  n <- get_sock ;;
  fun E s => mkRun (completes (net_disconnect E n)) s [NetDisconnect].

(** [exc.name], for an attribute an exception may lack. *)
Definition exc_attr (o : option pyval) (name : string) : M pyval :=
  match o with
  | Some v => ret v
  | None => raise (AttributeError name)
  end.

Definition download_failed : pymsg :=
  MLit "Unknown error occurred during the download of the report.".

Definition download_time_exceeded : pymsg :=
  MLit "Download time exceeded, the operation has been canceled.".

Definition workflow_failed : pymsg := MLit "Workflow query has failed.".

(** [data = {'model': osv_name, 'id': obj_id, 'report_type': report_type}] *)
Definition report_data (osv_name obj_id report_type : pyval) : pyval :=
  VDict [("model", osv_name); ("id", obj_id); ("report_type", report_type)].

(** [if context is None: context = {}] *)
Definition default_context (context : pyval) : pyval :=
  match context with
  | VNone => VDict []
  | _ => context
  end.

Module _ConnectorXMLRPC.

Definition __init__ (server port : pyval) : outcome connector :=
  match _Connector.__init__ XmlRpc server port with
  | Return (mkConnector c host prt _ db sk) =>
      Return (mkConnector c host prt
                (Some (MFormat "http://{server}:{port}/xmlrpc" [host; prt]))
                db sk)
  | Raise e => Raise e
  end.

Definition login (database user passwd : pyval) : M pyval :=
  set_database database ;;
  try_except
    (db <- get_database ;;
     xml_call Common "login" [db; user; passwd])
    (fun exc =>
       if is_Fault exc then
         Some (code <- exc_attr (faultCode_of exc) "faultCode" ;;
               raise (LoginError (MRepr code)))
       else if is_socket_error exc then
         Some (text <- exc_attr (strerror_of exc) "strerror" ;;
               raise (LoginError (MVal text)))
       else None).

Definition execute (uid upasswd osv_name method : pyval) (args : list pyval)
  : M pyval :=
  try_except
    (db <- get_database ;;
     xml_call Object "execute" (db :: uid :: upasswd :: osv_name :: method :: args))
    (fun exc =>
       if is_socket_error exc then
         Some (text <- exc_attr (strerror_of exc) "strerror" ;;
               raise (ExecuteError (MVal text)))
       else if is_Fault exc then
         Some (code <- exc_attr (faultCode_of exc) "faultCode" ;;
               raise (ExecuteError (MVal code)))
       else if is_xmlrpclib_Error exc then
         Some (code <- exc_attr (faultCode_of exc) "faultCode" ;;
               text <- exc_attr (faultString_of exc) "faultString" ;;
               raise (ExecuteError
                        (MFormat "{0}: {1}" [py_or code (VStr "Unknown error"); text])))
       else None).

Definition exec_workflow (uid upasswd osv_name signal obj_id : pyval) : M pyval :=
  try_except
    (db <- get_database ;;
     xml_call Object "exec_workflow" [db; uid; upasswd; osv_name; signal; obj_id])
    (fun exc =>
       if is_Exception exc then Some (raise (ExecWorkflowError workflow_failed))
       else None).

(** One turn of the [while not state] loop: the status call, the test
    of ['state'], the sleep and the count, the test of the ceiling. *)
Definition poll (uid upasswd report_id : pyval) (attempt : Z)
  : M (pyval * pyval * Z) :=
  pdf_data <- try_except
                (db <- get_database ;;
                 xml_call Report "report_get" [db; uid; upasswd; report_id])
                (fun exc =>
                   if is_xmlrpclib_Error exc
                   then Some (raise (ExecReportError download_failed))
                   else None) ;;
  state <- getitem pdf_data "state" ;;
  attempt <- (if negb (truthy state)
              then time_sleep 1 ;; ret (attempt + 1)
              else ret attempt) ;;
  (if attempt >? 200
   then raise (ExecReportError download_time_exceeded)
   else ret tt) ;;
  ret (pdf_data, state, attempt).

(** The loop, entered with [state = False].  [fuel] bounds the number of
    turns of the model; [None] is returned when it runs out. *)
Fixpoint wait (fuel : nat) (uid upasswd report_id : pyval) (attempt : Z)
  : M (option pyval) :=
  match fuel with
  | O => ret None
  | S fuel' =>
      turn <- poll uid upasswd report_id attempt ;;
      let '(pdf_data, state, attempt) := turn in
      if negb (truthy state)
      then wait fuel' uid upasswd report_id attempt
      else ret (Some pdf_data)
  end.

Definition report (fuel : nat)
           (uid upasswd report_name osv_name obj_id report_type context : pyval)
  : M (option pyval) :=
  let context := default_context context in
  let data := report_data osv_name obj_id report_type in
  report_id <- try_except
                 (db <- get_database ;;
                  xml_call Report "report"
                           [db; uid; upasswd; report_name; VList [obj_id]; data; context])
                 (fun exc =>
                    if is_xmlrpclib_Error exc then
                      Some (code <- exc_attr (faultCode_of exc) "faultCode" ;;
                            raise (ExecReportError (MVal code)))
                    else None) ;;
  wait fuel uid upasswd report_id 0.

End _ConnectorXMLRPC.

Module _ConnectorNetRPC.

Definition __init__ (server port : pyval) : outcome connector :=
  _Connector.__init__ NetRpc server port.

Definition _request (service method : string) (args : list pyval) : M pyval :=
  sock_new ;;
  host <- get_server ;;
  prt <- get_port ;;
  sock_connect host prt ;;
  sock_send (VTuple (VStr service :: VStr method :: args)) ;;
  result <- sock_receive ;;
  sock_disconnect ;;
  ret result.

Definition login (database user passwd : pyval) : M pyval :=
  set_database database ;;
  try_except
    (db <- get_database ;;
     _request "common" "login" [db; user; passwd])
    (fun exc =>
       match exc with
       | NetRPCError detail => Some (raise (LoginError (MUnicode detail)))
       | _ => None
       end).

Definition execute (uid upasswd osv_name method : pyval) (args : list pyval)
  : M pyval :=
  try_except
    (db <- get_database ;;
     _request "object" "execute" (db :: uid :: upasswd :: osv_name :: method :: args))
    (fun exc =>
       match exc with
       | NetRPCError detail => Some (raise (ExecuteError (MUnicode detail)))
       | _ => None
       end).

Definition exec_workflow (uid upasswd osv_name signal obj_id : pyval) : M pyval :=
  try_except
    (db <- get_database ;;
     _request "object" "exec_workflow" [db; uid; upasswd; osv_name; signal; obj_id])
    (fun exc =>
       if is_NetRPCError exc then Some (raise (ExecWorkflowError workflow_failed))
       else None).

Definition poll (uid upasswd report_id : pyval) (attempt : Z)
  : M (pyval * pyval * Z) :=
  pdf_data <- try_except
                (db <- get_database ;;
                 _request "report" "report_get" [db; uid; upasswd; report_id])
                (fun exc =>
                   if is_NetRPCError exc
                   then Some (raise (ExecReportError download_failed))
                   else None) ;;
  state <- getitem pdf_data "state" ;;
  attempt <- (if negb (truthy state)
              then time_sleep 1 ;; ret (attempt + 1)
              else ret attempt) ;;
  (if attempt >? 200
   then raise (ExecReportError download_time_exceeded)
   else ret tt) ;;
  ret (pdf_data, state, attempt).

Fixpoint wait (fuel : nat) (uid upasswd report_id : pyval) (attempt : Z)
  : M (option pyval) :=
  match fuel with
  | O => ret None
  | S fuel' =>
      turn <- poll uid upasswd report_id attempt ;;
      let '(pdf_data, state, attempt) := turn in
      if negb (truthy state)
      then wait fuel' uid upasswd report_id attempt
      else ret (Some pdf_data)
  end.

Definition report (fuel : nat)
           (uid upasswd report_name osv_name obj_id report_type context : pyval)
  : M (option pyval) :=
  let context := default_context context in
  let data := report_data osv_name obj_id report_type in
  report_id <- try_except
                 (db <- get_database ;;
                  _request "report" "report"
                           [db; uid; upasswd; report_name; VList [obj_id]; data; context])
                 (fun exc =>
                    match exc with
                    | NetRPCError detail => Some (raise (ExecReportError (MUnicode detail)))
                    | _ => None
                    end) ;;
  wait fuel uid upasswd report_id 0.

End _ConnectorNetRPC.

(** ** The factory *)

(** The dictionary of [get_connector], keys in the order of the text. *)
Definition connectors : list (string * variant) :=
  [("xmlrpc", XmlRpc); ("netrpc", NetRpc)].

Definition construct (c : variant) (server port : pyval) : outcome connector :=
  match c with
  | XmlRpc => _ConnectorXMLRPC.__init__ server port
  | NetRpc => _ConnectorNetRPC.__init__ server port
  end.

Definition get_connector (server port : pyval) (protocol : string) : outcome connector :=
  match assoc protocol connectors with
  | None =>
      Raise (ConnectorError
               (MFormat ("The protocol '{0}' is not supported. "
                         ++ "Please choose a protocol among these ones: {1}")
                        [VStr protocol; VList (map (fun kv => VStr (fst kv)) connectors)]))
  | Some c => construct c server port
  end.

(** ** Method calls on a connector

    [cnt.login(...)] and the like, resolved on the class of the
    instance. *)

Definition login (database user passwd : pyval) : M pyval :=
  fun E s =>
    match cls (self s) with
    | XmlRpc => _ConnectorXMLRPC.login database user passwd E s
    | NetRpc => _ConnectorNetRPC.login database user passwd E s
    end.

Definition execute (uid upasswd osv_name method : pyval) (args : list pyval) : M pyval :=
  fun E s =>
    match cls (self s) with
    | XmlRpc => _ConnectorXMLRPC.execute uid upasswd osv_name method args E s
    | NetRpc => _ConnectorNetRPC.execute uid upasswd osv_name method args E s
    end.

Definition exec_workflow (uid upasswd osv_name signal obj_id : pyval) : M pyval :=
  fun E s =>
    match cls (self s) with
    | XmlRpc => _ConnectorXMLRPC.exec_workflow uid upasswd osv_name signal obj_id E s
    | NetRpc => _ConnectorNetRPC.exec_workflow uid upasswd osv_name signal obj_id E s
    end.

Definition report (fuel : nat)
           (uid upasswd report_name osv_name obj_id report_type context : pyval)
  : M (option pyval) :=
  fun E s =>
    match cls (self s) with
    | XmlRpc => _ConnectorXMLRPC.report fuel uid upasswd report_name osv_name obj_id
                                        report_type context E s
    | NetRpc => _ConnectorNetRPC.report fuel uid upasswd report_name osv_name obj_id
                                        report_type context E s
    end.

(** ** One remote call, seen from outside

    Both classes make their remote calls one at a time.  [remote] is the
    remote call of class [c]; [reply_of] is its result as the environment
    fixes it, [events_of] what it does on the transport, and [advance] the
    state it leaves. *)

Definition service_name (ep : endpoint) : string :=
  match ep with
  | Object => "object"
  | Report => "report"
  | Common => "common"
  end.

Definition remote (c : variant) (ep : endpoint) (method : string) (args : list pyval)
  : M pyval :=
  match c with
  | XmlRpc => xml_call ep method args
  | NetRpc => _ConnectorNetRPC._request (service_name ep) method args
  end.

Definition request_tuple (ep : endpoint) (method : string) (args : list pyval) : pyval :=
  VTuple (VStr (service_name ep) :: VStr method :: args).

Definition net_cycle (E : env) (n : nat) (host prt msg : pyval) : outcome pyval :=
  match net_connect E n host prt with
  | Some e => Raise e
  | None =>
      match net_send E n msg with
      | Some e => Raise e
      | None =>
          match net_receive E n with
          | Raise e => Raise e
          | Return v =>
              match net_disconnect E n with
              | Some e => Raise e
              | None => Return v
              end
          end
      end
  end.

Definition net_cycle_events (E : env) (n : nat) (host prt msg : pyval) : list event :=
  NetNew :: NetConnect host prt ::
  match net_connect E n host prt with
  | Some _ => []
  | None =>
      NetSend msg ::
      match net_send E n msg with
      | Some _ => []
      | None =>
          NetReceive ::
          match net_receive E n with
          | Raise _ => []
          | Return _ => [NetDisconnect]
          end
      end
  end.

Definition reply_of (E : env) (c : connector) (n : nat)
           (ep : endpoint) (method : string) (args : list pyval) : outcome pyval :=
  match cls c with
  | XmlRpc => xml_reply E n ep method args
  | NetRpc => net_cycle E n (server c) (port c) (request_tuple ep method args)
  end.

Definition events_of (E : env) (c : connector) (n : nat)
           (ep : endpoint) (method : string) (args : list pyval) : list event :=
  match cls c with
  | XmlRpc => [XmlCall ep method args]
  | NetRpc => net_cycle_events E n (server c) (port c) (request_tuple ep method args)
  end.

Definition advance (s : state) : state :=
  match cls (self s) with
  | XmlRpc => tick s
  | NetRpc =>
      let c := self s in
      mkState (mkConnector (cls c) (server c) (port c) (url c) (database c)
                           (Some (clock s)))
              (S (clock s))
  end.


(** ** The polling loop, once for both classes

    The two [report] methods differ only in the remote call and in the
    class of exception they catch.  [poll_of], [wait_of] and [report_of]
    are the loop written over [remote]; they are shown below to be the
    methods of the two classes. *)

Definition caught (c : variant) (e : pyexc) : bool :=
  match c with
  | XmlRpc => is_xmlrpclib_Error e
  | NetRpc => is_NetRPCError e
  end.

Definition status (c : variant) (uid upasswd report_id : pyval) : M pyval :=
  try_except
    (db <- get_database ;;
     remote c Report "report_get" [db; uid; upasswd; report_id])
    (fun exc =>
       if caught c exc then Some (raise (ExecReportError download_failed)) else None).

Definition poll_of (c : variant) (uid upasswd report_id : pyval) (attempt : Z)
  : M (pyval * pyval * Z) :=
  pdf_data <- status c uid upasswd report_id ;;
  state <- getitem pdf_data "state" ;;
  attempt <- (if negb (truthy state)
              then time_sleep 1 ;; ret (attempt + 1)
              else ret attempt) ;;
  (if attempt >? 200
   then raise (ExecReportError download_time_exceeded)
   else ret tt) ;;
  ret (pdf_data, state, attempt).

Fixpoint wait_of (c : variant) (fuel : nat) (uid upasswd report_id : pyval) (attempt : Z)
  : M (option pyval) :=
  match fuel with
  | O => ret None
  | S fuel' =>
      turn <- poll_of c uid upasswd report_id attempt ;;
      let '(pdf_data, state, attempt) := turn in
      if negb (truthy state)
      then wait_of c fuel' uid upasswd report_id attempt
      else ret (Some pdf_data)
  end.

(** The arguments of the submission call, after the database name. *)
Definition submit_args (uid upasswd report_name osv_name obj_id report_type context : pyval)
  : list pyval :=
  [uid; upasswd; report_name; VList [obj_id];
   report_data osv_name obj_id report_type; default_context context].

(** [pdf_data['state']] as a value or the exception of the subscript. *)
Definition item_state (p : pyval) : outcome pyval :=
  match p with
  | VDict d =>
      match assoc "state" d with
      | Some x => Return x
      | None => Raise (KeyError "state")
      end
  | _ => Raise TypeError
  end.

(** [Some true] for a payload whose ['state'] is truthy, [Some false] for
    one whose ['state'] is falsy, [None] for a payload without it. *)
Definition ready (p : pyval) : option bool :=
  match item_state p with
  | Return v => Some (truthy v)
  | Raise _ => None
  end.

(** One turn of the loop in closed form, from the reply of the status
    call, the events of that call and the state it leaves. *)
Definition turn (c : variant) (reply : outcome pyval) (evs : list event)
           (attempt : Z) (s' : state) : run (pyval * pyval * Z) :=
  match reply with
  | Raise e =>
      mkRun (Raise (if caught c e then ExecReportError download_failed else e)) s' evs
  | Return p =>
      match item_state p with
      | Raise e => mkRun (Raise e) s' evs
      | Return v =>
          if truthy v then
            if attempt >? 200
            then mkRun (Raise (ExecReportError download_time_exceeded)) s' evs
            else mkRun (Return (p, v, attempt)) s' evs
          else
            if attempt + 1 >? 200
            then mkRun (Raise (ExecReportError download_time_exceeded)) s' (evs ++ [Sleep 1])
            else mkRun (Return (p, v, attempt + 1)) s' (evs ++ [Sleep 1])
      end
  end.

(** Events that are status polls, and sleeps. *)
Definition is_status_poll (ev : event) : bool :=
  match ev with
  | XmlCall Report method _ => String.eqb method "report_get"
  | NetSend (VTuple (VStr service :: VStr method :: _)) =>
      (String.eqb service "report" && String.eqb method "report_get")%bool
  | _ => false
  end.

Definition is_sleep (ev : event) : bool :=
  match ev with
  | Sleep _ => true
  | _ => false
  end.

Definition count (f : event -> bool) (evs : list event) : nat :=
  List.length (List.filter f evs).

(** The reply and the events of the status call of rank [n], and of the
    submission call. *)
Definition status_reply (E : env) (c : connector) (n : nat)
           (db uid upasswd report_id : pyval) : outcome pyval :=
  reply_of E c n Report "report_get" [db; uid; upasswd; report_id].

Definition status_events (E : env) (c : connector) (n : nat)
           (db uid upasswd report_id : pyval) : list event :=
  events_of E c n Report "report_get" [db; uid; upasswd; report_id].

Definition submit_reply (E : env) (c : connector) (n : nat)
           (db : pyval) (args : list pyval) : outcome pyval :=
  reply_of E c n Report "report" (db :: args).

Definition submit_events (E : env) (c : connector) (n : nat)
           (db : pyval) (args : list pyval) : list event :=
  events_of E c n Report "report" (db :: args).

(** The events of the status calls of ranks [n], ..., [n + k - 1], each
    followed by a sleep of one second. *)
Definition pending_events (E : env) (c : connector) (n k : nat)
           (db uid upasswd report_id : pyval) : list event :=
  flat_map (fun i => (status_events E c i db uid upasswd report_id ++ [Sleep 1])%list)
           (seq n k).

(** What [report] raises when the submission call raises [e]: the clause
    of each class, with [exc.faultCode] read on the XML-RPC side. *)
Definition submit_failure (c : variant) (e : pyexc) : pyexc :=
  match c with
  | XmlRpc =>
      if is_xmlrpclib_Error e then
        match faultCode_of e with
        | Some code => ExecReportError (MVal code)
        | None => AttributeError "faultCode"
        end
      else e
  | NetRpc =>
      match e with
      | NetRPCError detail => ExecReportError (MUnicode detail)
      | _ => e
      end
  end.

(** ** The clauses of each method in closed form

    What a method raises when its remote call raises [e]. *)

Definition login_failure (c : variant) (e : pyexc) : pyexc :=
  match c with
  | XmlRpc =>
      if is_Fault e then
        match faultCode_of e with
        | Some code => LoginError (MRepr code)
        | None => AttributeError "faultCode"
        end
      else if is_socket_error e then
        match strerror_of e with
        | Some text => LoginError (MVal text)
        | None => AttributeError "strerror"
        end
      else e
  | NetRpc =>
      match e with
      | NetRPCError detail => LoginError (MUnicode detail)
      | _ => e
      end
  end.

Definition execute_failure (c : variant) (e : pyexc) : pyexc :=
  match c with
  | XmlRpc =>
      if is_socket_error e then
        match strerror_of e with
        | Some text => ExecuteError (MVal text)
        | None => AttributeError "strerror"
        end
      else if is_Fault e then
        match faultCode_of e with
        | Some code => ExecuteError (MVal code)
        | None => AttributeError "faultCode"
        end
      else if is_xmlrpclib_Error e then
        match faultCode_of e, faultString_of e with
        | Some code, Some text =>
            ExecuteError (MFormat "{0}: {1}" [py_or code (VStr "Unknown error"); text])
        | Some _, None => AttributeError "faultString"
        | None, _ => AttributeError "faultCode"
        end
      else e
  | NetRpc =>
      match e with
      | NetRPCError detail => ExecuteError (MUnicode detail)
      | _ => e
      end
  end.

Definition workflow_failure (c : variant) (e : pyexc) : pyexc :=
  match c with
  | XmlRpc => if is_Exception e then ExecWorkflowError workflow_failed else e
  | NetRpc => if is_NetRPCError e then ExecWorkflowError workflow_failed else e
  end.

(** The state after [self.database = d]. *)
Definition with_database (d : pyval) (s : state) : state :=
  let c := self s in
  mkState (mkConnector (cls c) (server c) (port c) (url c) (Some d) (sock c)) (clock s).

(** The run of a method that makes one guarded remote call: its result
    with [failure] applied to what the call raises, the events of the
    call, the state the call leaves. *)
Definition one_call (E : env) (s : state) (failure : pyexc -> pyexc)
           (ep : endpoint) (method : string) (args : list pyval) : run pyval :=
  mkRun (match reply_of E (self s) (clock s) ep method args with
         | Return v => Return v
         | Raise e => Raise (failure e)
         end)
        (advance s)
        (events_of E (self s) (clock s) ep method args).

(** The failures of a remote call, in the words of the specification.  A
    [socket.error] is a transport failure in both classes: both transports
    run over a socket.  On the XML-RPC side the protocol and response
    errors of [xmlrpclib] are transport failures too, and a remote fault is
    an [xmlrpclib.Fault].  On the NetRPC side [netrpc.NetRPCError], the
    error of the transport module, stands for both. *)
Definition transport_failure (c : variant) (e : pyexc) : bool :=
  match c, e with
  | XmlRpc, (SocketError _ | ProtocolError _ _ _ | ResponseError) => true
  | NetRpc, (SocketError _ | NetRPCError _) => true
  | _, _ => false
  end.

Definition remote_fault (c : variant) (e : pyexc) : bool :=
  match c, e with
  | XmlRpc, Fault _ _ => true
  | NetRpc, NetRPCError _ => true
  | _, _ => false
  end.


(** The shape of what the NetRPC loop does from the remote call of rank
    [n] on: request cycles for the one message [msg], as far as each went,
    a cycle being followed by a sleep or not. *)
Inductive poll_trace (E : env) (host prt msg : pyval) : nat -> list event -> Prop :=
| poll_trace_end (n : nat) : poll_trace E host prt msg n []
| poll_trace_cycle (n : nat) (rest : list event) :
    poll_trace E host prt msg (S n) rest ->
    poll_trace E host prt msg n (net_cycle_events E n host prt msg ++ rest)%list
| poll_trace_sleep (n : nat) (rest : list event) :
    poll_trace E host prt msg (S n) rest ->
    poll_trace E host prt msg n (net_cycle_events E n host prt msg ++ Sleep 1 :: rest)%list.

(** ** Sample environments and states

    Test doubles for the transports, used to run the methods on concrete
    inputs. *)

(** A transport that answers the remote call of rank [n] with [script n];
    on the NetRPC side connecting, sending and disconnecting succeed. *)
Definition scripted (script : nat -> outcome pyval) : env :=
  mkEnv (fun n _ _ _ => script n)
        (fun _ _ _ => None)
        (fun _ _ => None)
        script
        (fun _ => None).

Definition pending_payload : pyval := VDict [("state", VBool false)].

Definition ready_payload : pyval :=
  VDict [("state", VBool true); ("result", VStr "JVBERi0="); ("format", VStr "pdf")].

(** The job is accepted with identifier 7 and is never ready. *)
Definition never_ready : env :=
  scripted (fun n => match n with
                     | O => Return (VInt 7)
                     | S _ => Return pending_payload
                     end).

(** The job is accepted with identifier 7, pending at the first two status
    calls and ready at the third. *)
Definition ready_at_third : env :=
  scripted (fun n => match n with
                     | O => Return (VInt 7)
                     | 1%nat | 2%nat => Return pending_payload
                     | _ => Return ready_payload
                     end).

(** A connector of class [c] as its constructor builds it for server
    ["localhost"] and port 8069: no [database] attribute yet. *)
Definition just_built (c : variant) : state :=
  mkState (mkConnector c (VStr "localhost") (VInt 8069)
             (match c with
              | XmlRpc => Some (MFormat "http://{server}:{port}/xmlrpc"
                                        [VStr "localhost"; VInt 8069])
              | NetRpc => None
              end)
             None None)
          0.

(** The same connector once [login] has stored the database ["db"]. *)
Definition logged_in (c : variant) : state := with_database (VStr "db") (just_built c).

(** Every remote call gets the same answer. *)
Definition answering (r : outcome pyval) : env := scripted (fun _ => r).

(** The job is accepted with identifier 7, then the server stops
    listening. *)
Definition refused_at_first_poll : env :=
  scripted (fun n => match n with
                     | O => Return (VInt 7)
                     | S _ => Raise (SocketError (VStr "Connection refused"))
                     end).

(** The job is accepted with identifier 7; the status payload has the
    document but no ['state']. *)
Definition payload_without_state : env :=
  scripted (fun n => match n with
                     | O => Return (VInt 7)
                     | S _ => Return (VDict [("result", VStr "JVBERi0=")])
                     end).

(** [c'] is a connector to the same server as [c]: same class, server,
    port and URL. *)
Definition same_target (c c' : connector) : Prop :=
  cls c' = cls c /\ server c' = server c /\ port c' = port c /\ url c' = url c.

(** [true] when the outcome is an exception of the kind of the
    operation. *)
Definition raises_kind {A : Type} (op : operation) (o : outcome A) : bool :=
  match o with
  | Raise e => has_kind op e
  | Return _ => false
  end.

(** The server does not listen: connecting raises [socket.error], on the
    HTTP side as on the socket side. *)
Definition connection_refused : env :=
  mkEnv (fun _ _ _ _ => Raise (SocketError (VStr "Connection refused")))
        (fun _ _ _ => Some (SocketError (VStr "Connection refused")))
        (fun _ _ => None)
        (fun _ => Return VNone)
        (fun _ => None).
(** * Properties *)

Local Open Scope list_scope.

Lemma request_run (E : env) (s : state) (service method : string) (args : list pyval) :
  let msg := VTuple (VStr service :: VStr method :: args) in
  let c := self s in
  _ConnectorNetRPC._request service method args E s =
  mkRun (net_cycle E (clock s) (server c) (port c) msg)
        (mkState (mkConnector (cls c) (server c) (port c) (url c) (database c)
                              (Some (clock s)))
                 (S (clock s)))
        (net_cycle_events E (clock s) (server c) (port c) msg).
Proof.
  destruct s as [[k host prt u db sk] n].
  unfold _ConnectorNetRPC._request, net_cycle, net_cycle_events; cbn.
  unfold bind, after; cbn.
  destruct (net_connect E n host prt); cbn; [reflexivity|].
  destruct (net_send E n _); cbn; [reflexivity|].
  destruct (net_receive E n); cbn; [|reflexivity].
  destruct (net_disconnect E n); reflexivity.
Qed.

Lemma remote_run (E : env) (s : state) (ep : endpoint) (method : string)
      (args : list pyval) :
  remote (cls (self s)) ep method args E s =
  mkRun (reply_of E (self s) (clock s) ep method args)
        (advance s)
        (events_of E (self s) (clock s) ep method args).
Proof.
  unfold remote, reply_of, events_of, advance.
  destruct (cls (self s)) eqn:Hc.
  - reflexivity.
  - rewrite request_run. rewrite Hc. reflexivity.
Qed.

Lemma advance_self (s : state) :
  cls (self (advance s)) = cls (self s) /\
  server (self (advance s)) = server (self s) /\
  port (self (advance s)) = port (self s) /\
  database (self (advance s)) = database (self s) /\
  clock (advance s) = S (clock s).
Proof. unfold advance. destruct (cls (self s)) eqn:Hc; cbn; auto. Qed.

Lemma reply_of_advance E s n ep method args :
  reply_of E (self (advance s)) n ep method args = reply_of E (self s) n ep method args.
Proof.
  destruct (advance_self s) as (Hc & Hs & Hp & _).
  unfold reply_of. rewrite Hc, Hs, Hp. reflexivity.
Qed.

Lemma events_of_advance E s n ep method args :
  events_of E (self (advance s)) n ep method args = events_of E (self s) n ep method args.
Proof.
  destruct (advance_self s) as (Hc & Hs & Hp & _).
  unfold events_of. rewrite Hc, Hs, Hp. reflexivity.
Qed.

(** ** The loop of both classes is [wait_of] *)

Lemma xmlrpc_poll_eq uid upasswd report_id attempt :
  _ConnectorXMLRPC.poll uid upasswd report_id attempt
  = poll_of XmlRpc uid upasswd report_id attempt.
Proof. reflexivity. Qed.

Lemma netrpc_poll_eq uid upasswd report_id attempt :
  _ConnectorNetRPC.poll uid upasswd report_id attempt
  = poll_of NetRpc uid upasswd report_id attempt.
Proof. reflexivity. Qed.

Lemma xmlrpc_wait_eq fuel uid upasswd report_id :
  forall attempt E s,
    _ConnectorXMLRPC.wait fuel uid upasswd report_id attempt E s
    = wait_of XmlRpc fuel uid upasswd report_id attempt E s.
Proof.
  induction fuel as [|fuel IH]; intros attempt E s; [reflexivity|].
  cbn [_ConnectorXMLRPC.wait wait_of]. rewrite xmlrpc_poll_eq.
  unfold bind.
  destruct (out (poll_of XmlRpc uid upasswd report_id attempt E s)) as [[[p st] a]|e];
    [|reflexivity].
  destruct (negb (truthy st)); [rewrite IH|]; reflexivity.
Qed.

Lemma netrpc_wait_eq fuel uid upasswd report_id :
  forall attempt E s,
    _ConnectorNetRPC.wait fuel uid upasswd report_id attempt E s
    = wait_of NetRpc fuel uid upasswd report_id attempt E s.
Proof.
  induction fuel as [|fuel IH]; intros attempt E s; [reflexivity|].
  cbn [_ConnectorNetRPC.wait wait_of]. rewrite netrpc_poll_eq.
  unfold bind.
  destruct (out (poll_of NetRpc uid upasswd report_id attempt E s)) as [[[p st] a]|e];
    [|reflexivity].
  destruct (negb (truthy st)); [rewrite IH|]; reflexivity.
Qed.

Lemma getitem_state_run (p : pyval) (E : env) (s : state) :
  getitem p "state" E s = mkRun (item_state p) s [].
Proof.
  destruct p; try reflexivity.
  cbn. destruct (assoc "state" d); reflexivity.
Qed.

Lemma status_run c E s db uid upasswd report_id :
  cls (self s) = c ->
  database (self s) = Some db ->
  status c uid upasswd report_id E s =
  let reply := reply_of E (self s) (clock s) Report "report_get" [db; uid; upasswd; report_id] in
  mkRun (match reply with
         | Return p => Return p
         | Raise e => Raise (if caught c e then ExecReportError download_failed else e)
         end)
        (advance s)
        (events_of E (self s) (clock s) Report "report_get" [db; uid; upasswd; report_id]).
Proof.
  intros Hc Hdb. subst c.
  unfold status, try_except, bind, get_database. rewrite Hdb. cbn [out final events].
  rewrite remote_run. unfold after, raise. cbn [out final events app].
  destruct (reply_of E (self s) (clock s) Report "report_get" _) as [p|e];
    cbn [out final events].
  - reflexivity.
  - destruct (caught (cls (self s)) e); cbn [out final events];
      rewrite ?app_nil_r; reflexivity.
Qed.

Lemma poll_of_run c E s db uid upasswd report_id attempt :
  cls (self s) = c ->
  database (self s) = Some db ->
  poll_of c uid upasswd report_id attempt E s =
  turn c (reply_of E (self s) (clock s) Report "report_get" [db; uid; upasswd; report_id])
       (events_of E (self s) (clock s) Report "report_get" [db; uid; upasswd; report_id])
       attempt (advance s).
Proof.
  intros Hc Hdb. unfold poll_of, turn.
  unfold bind at 1. rewrite (status_run c E s db) by assumption. cbn [out final events].
  destruct (reply_of E (self s) (clock s) Report "report_get" _) as [p|e]; [|reflexivity].
  unfold bind at 1. rewrite getitem_state_run. unfold after at 1. cbn [out final events].
  destruct (item_state p) as [v|e]; [|rewrite app_nil_r; reflexivity].
  destruct (truthy v); cbn [negb].
  - unfold bind, ret, raise, after; cbn [out final events].
    destruct (attempt >? 200); cbn [out final events]; rewrite ?app_nil_r; reflexivity.
  - unfold bind, ret, raise, after, time_sleep, emit; cbn [out final events].
    destruct (attempt + 1 >? 200); cbn [out final events app];
      rewrite ?app_nil_r; reflexivity.
Qed.

Lemma poll_of_nodb c E s uid upasswd report_id attempt :
  database (self s) = None ->
  poll_of c uid upasswd report_id attempt E s
  = mkRun (Raise (AttributeError "database")) s [].
Proof.
  intros Hdb. unfold poll_of, status, bind, try_except, get_database.
  rewrite Hdb. cbn [out final events].
  destruct c; reflexivity.
Qed.

Lemma gtb_false_iff (a b : Z) : (a >? b) = false <-> a <= b.
Proof. rewrite Z.gtb_ltb. apply Z.ltb_ge. Qed.

Lemma gtb_true_iff (a b : Z) : (a >? b) = true <-> b < a.
Proof. rewrite Z.gtb_ltb. apply Z.ltb_lt. Qed.

Lemma turn_final c reply evs attempt s' :
  final (turn c reply evs attempt s') = s'.
Proof.
  unfold turn. destruct reply as [p|e]; [|reflexivity].
  destruct (item_state p) as [v|e]; [|reflexivity].
  destruct (truthy v); [destruct (attempt >? 200)|destruct (attempt + 1 >? 200)];
    reflexivity.
Qed.

(** What a turn that goes through tells: the reply was a payload with a
    ['state'], the counter moved by one exactly when it was falsy, and it is
    still within the ceiling. *)
Lemma turn_inv c reply evs attempt s' p v a :
  out (turn c reply evs attempt s') = Return (p, v, a) ->
  reply = Return p /\ item_state p = Return v /\ a <= 200 /\
  ((truthy v = true /\ a = attempt) \/ (truthy v = false /\ a = attempt + 1)).
Proof.
  unfold turn. destruct reply as [p0|e]; [|discriminate].
  destruct (item_state p0) as [v0|e] eqn:Hitem; [|discriminate].
  destruct (truthy v0) eqn:Hv.
  - destruct (attempt >? 200) eqn:Hc; cbn; [discriminate|].
    intros H; injection H as Hp Hv' Ha. subst p0 v0 a.
    repeat split; auto. apply gtb_false_iff; exact Hc.
  - destruct (attempt + 1 >? 200) eqn:Hc; cbn; [discriminate|].
    intros H; injection H as Hp Hv' Ha. subst p0 v0 a.
    repeat split; auto. apply gtb_false_iff; exact Hc.
Qed.

Lemma turn_pending c p evs attempt s' :
  ready p = Some false -> attempt + 1 <= 200 ->
  exists v, truthy v = false /\
    turn c (Return p) evs attempt s'
    = mkRun (Return (p, v, attempt + 1)) s' (evs ++ [Sleep 1]).
Proof.
  unfold ready, turn. intros Hr Ha.
  destruct (item_state p) as [v|e]; [|discriminate].
  injection Hr as Hv. exists v. split; [exact Hv|]. rewrite Hv.
  replace (attempt + 1 >? 200) with false; [reflexivity|].
  symmetry. apply gtb_false_iff. exact Ha.
Qed.

Lemma turn_ceiling c p evs attempt s' :
  ready p = Some false -> 200 < attempt + 1 ->
  turn c (Return p) evs attempt s'
  = mkRun (Raise (ExecReportError download_time_exceeded)) s' (evs ++ [Sleep 1]).
Proof.
  unfold ready, turn. intros Hr Ha.
  destruct (item_state p) as [v|e]; [|discriminate].
  injection Hr as Hv. rewrite Hv.
  replace (attempt + 1 >? 200) with true; [reflexivity|].
  symmetry. apply gtb_true_iff. exact Ha.
Qed.

Lemma turn_ready c p evs attempt s' :
  ready p = Some true -> attempt <= 200 ->
  exists v, truthy v = true /\
    turn c (Return p) evs attempt s' = mkRun (Return (p, v, attempt)) s' evs.
Proof.
  unfold ready, turn. intros Hr Ha.
  destruct (item_state p) as [v|e]; [|discriminate].
  injection Hr as Hv. exists v. split; [exact Hv|]. rewrite Hv.
  replace (attempt >? 200) with false; [reflexivity|].
  symmetry. apply gtb_false_iff. exact Ha.
Qed.

(** One unfolding of the loop. *)
Lemma wait_of_step c fuel uid upasswd report_id attempt E s :
  wait_of c (S fuel) uid upasswd report_id attempt E s =
  let r := poll_of c uid upasswd report_id attempt E s in
  match out r with
  | Return (pdf_data, state, attempt') =>
      if negb (truthy state)
      then after r (wait_of c fuel uid upasswd report_id attempt' E (final r))
      else after r (mkRun (Return (Some pdf_data)) (final r) [])
  | Raise e => mkRun (Raise e) (final r) (events r)
  end.
Proof.
  cbn [wait_of]. unfold bind.
  destruct (out (poll_of c uid upasswd report_id attempt E s)) as [[[p v] a]|e];
    [|reflexivity].
  destruct (negb (truthy v)); reflexivity.
Qed.

Lemma status_reply_advance E s n db uid upasswd report_id :
  status_reply E (self (advance s)) n db uid upasswd report_id
  = status_reply E (self s) n db uid upasswd report_id.
Proof. apply reply_of_advance. Qed.

Lemma status_events_advance E s n db uid upasswd report_id :
  status_events E (self (advance s)) n db uid upasswd report_id
  = status_events E (self s) n db uid upasswd report_id.
Proof. apply events_of_advance. Qed.

Lemma pending_events_advance E s n k db uid upasswd report_id :
  pending_events E (self (advance s)) n k db uid upasswd report_id
  = pending_events E (self s) n k db uid upasswd report_id.
Proof.
  unfold pending_events. apply flat_map_ext. intros i.
  rewrite status_events_advance. reflexivity.
Qed.

Lemma pending_events_S E c n k db uid upasswd report_id :
  pending_events E c n (S k) db uid upasswd report_id
  = (status_events E c n db uid upasswd report_id ++ [Sleep 1])
      ++ pending_events E c (S n) k db uid upasswd report_id.
Proof. reflexivity. Qed.

Lemma poll_of_status c E s db uid upasswd report_id attempt :
  cls (self s) = c ->
  database (self s) = Some db ->
  poll_of c uid upasswd report_id attempt E s =
  turn c (status_reply E (self s) (clock s) db uid upasswd report_id)
       (status_events E (self s) (clock s) db uid upasswd report_id)
       attempt (advance s).
Proof. apply poll_of_run. Qed.

(** The loop on a job that is ready at the status call of rank
    [clock s + N], the earlier ones having found it pending. *)
Lemma wait_of_ready c E db uid upasswd report_id payload :
  forall (N fuel : nat) (attempt : Z) (s : state),
    cls (self s) = c ->
    database (self s) = Some db ->
    (N < fuel)%nat ->
    attempt + Z.of_nat N <= 200 ->
    (forall n, (clock s <= n < clock s + N)%nat ->
               exists p, status_reply E (self s) n db uid upasswd report_id = Return p
                         /\ ready p = Some false) ->
    status_reply E (self s) (clock s + N) db uid upasswd report_id = Return payload ->
    ready payload = Some true ->
    let r := wait_of c fuel uid upasswd report_id attempt E s in
    out r = Return (Some payload) /\
    events r = (pending_events E (self s) (clock s) N db uid upasswd report_id
                ++ status_events E (self s) (clock s + N) db uid upasswd report_id)%list /\
    clock (final r) = (clock s + N + 1)%nat /\
    database (self (final r)) = Some db /\
    cls (self (final r)) = c.
Proof.
  induction N as [|N IH]; intros fuel attempt s Hc Hdb Hfuel Hatt Hpend Hlast Hready r;
    subst r; (destruct fuel as [|fuel]; [lia|]);
    rewrite wait_of_step; cbv zeta;
    rewrite (poll_of_status c E s db) by assumption;
    destruct (advance_self s) as (Ac & _ & _ & Adb & Aclock).
  - rewrite Nat.add_0_r in Hlast. rewrite Hlast.
    destruct (turn_ready c payload
                (status_events E (self s) (clock s) db uid upasswd report_id)
                attempt (advance s) Hready) as (v & Hv & ->); [lia|].
    cbn [out final events]. rewrite Hv. cbn [negb]. unfold after. cbn [out final events].
    rewrite app_nil_r, Nat.add_0_r. cbn [pending_events flat_map seq app].
    repeat split; try congruence. lia.
  - destruct (Hpend (clock s)) as (p & Hp & Hrp); [lia|]. rewrite Hp.
    destruct (turn_pending c p
                (status_events E (self s) (clock s) db uid upasswd report_id)
                attempt (advance s) Hrp) as (v & Hv & ->); [lia|].
    cbn [out final events]. rewrite Hv. cbn [negb]. unfold after. cbn [out final events].
    destruct (IH fuel (attempt + 1) (advance s)) as (Ho & He & Hk & Hd & Hcl).
    + congruence.
    + congruence.
    + lia.
    + lia.
    + intros n Hn. rewrite status_reply_advance. apply Hpend. lia.
    + rewrite status_reply_advance. rewrite Aclock.
      replace (S (clock s) + N)%nat with (clock s + S N)%nat by lia. exact Hlast.
    + exact Hready.
    + repeat split; try assumption.
      * rewrite He. rewrite pending_events_advance, status_events_advance, Aclock.
        rewrite pending_events_S.
        replace (S (clock s) + N)%nat with (clock s + S N)%nat by lia.
        rewrite <- !app_assoc. reflexivity.
      * rewrite Hk, Aclock. lia.
Qed.

(** ** The guarded remote call of every method *)

Lemma call_run E s db ep method (f : pyval -> list pyval) :
  database (self s) = Some db ->
  bind get_database (fun d => remote (cls (self s)) ep method (f d)) E s
  = mkRun (reply_of E (self s) (clock s) ep method (f db))
          (advance s)
          (events_of E (self s) (clock s) ep method (f db)).
Proof.
  intros Hdb. unfold bind, get_database. rewrite Hdb. cbn [out final events].
  rewrite remote_run. unfold after. cbn [out final events app].
  destruct (reply_of E (self s) (clock s) ep method (f db)); reflexivity.
Qed.

Lemma call_nodb E s c ep method (f : pyval -> list pyval) :
  database (self s) = None ->
  bind get_database (fun d => remote c ep method (f d)) E s
  = mkRun (Raise (AttributeError "database")) s [].
Proof. intros Hdb. unfold bind, get_database. rewrite Hdb. reflexivity. Qed.

(** [call_at R E s db ep m f Hdb Hc] states, as [R], the run of the call
    of method [m] in the class given by [Hc], in the form the method has
    it. *)
Ltac call_at R E s db ep m f Hdb Hc :=
  pose proof (call_run E s db ep m f Hdb) as R;
  rewrite Hc in R; cbn beta iota delta [remote service_name] in R.

Ltac nodb_at R E s c ep m f Hdb :=
  pose proof (call_nodb E s c ep m f Hdb) as R;
  cbn beta iota delta [remote service_name] in R.

(** ** [report] as a submission followed by the loop *)

Lemma report_run E s db fuel uid upasswd report_name osv_name obj_id report_type context :
  database (self s) = Some db ->
  let args := submit_args uid upasswd report_name osv_name obj_id report_type context in
  report fuel uid upasswd report_name osv_name obj_id report_type context E s =
  match submit_reply E (self s) (clock s) db args with
  | Return report_id =>
      after (mkRun (Return report_id) (advance s)
                   (submit_events E (self s) (clock s) db args))
            (wait_of (cls (self s)) fuel uid upasswd report_id 0 E (advance s))
  | Raise e =>
      mkRun (Raise (submit_failure (cls (self s)) e)) (advance s)
            (submit_events E (self s) (clock s) db args)
  end.
Proof.
  intros Hdb args. subst args. unfold submit_reply, submit_events, submit_args.
  unfold report. destruct (cls (self s)) eqn:Hc.
  - call_at R E s db Report "report"
      (fun d => [d; uid; upasswd; report_name; VList [obj_id];
                 report_data osv_name obj_id report_type; default_context context])
      Hdb Hc.
    unfold _ConnectorXMLRPC.report. unfold bind at 1. unfold try_except.
    rewrite R. cbn [out final events].
    destruct (reply_of E (self s) (clock s) Report "report" _) as [rid|e].
    + unfold after. cbn [out final events]. rewrite xmlrpc_wait_eq. reflexivity.
    + unfold submit_failure.
      destruct (is_xmlrpclib_Error e); [|reflexivity].
      unfold bind, exc_attr.
      destruct (faultCode_of e); unfold after, ret, raise; cbn [out final events];
        rewrite ?app_nil_r; reflexivity.
  - call_at R E s db Report "report"
      (fun d => [d; uid; upasswd; report_name; VList [obj_id];
                 report_data osv_name obj_id report_type; default_context context])
      Hdb Hc.
    unfold _ConnectorNetRPC.report. unfold bind at 1. unfold try_except.
    rewrite R. cbn [out final events].
    destruct (reply_of E (self s) (clock s) Report "report" _) as [rid|e].
    + unfold after. cbn [out final events]. rewrite netrpc_wait_eq. reflexivity.
    + unfold submit_failure.
      destruct e; unfold after, raise; cbn [out final events];
        rewrite ?app_nil_r; reflexivity.
Qed.

Lemma report_nodb E s fuel uid upasswd report_name osv_name obj_id report_type context :
  database (self s) = None ->
  report fuel uid upasswd report_name osv_name obj_id report_type context E s
  = mkRun (Raise (AttributeError "database")) s [].
Proof.
  intros Hdb. unfold report.
  destruct (cls (self s)).
  - nodb_at R E s XmlRpc Report "report"
      (fun d => [d; uid; upasswd; report_name; VList [obj_id];
                 report_data osv_name obj_id report_type; default_context context])
      Hdb.
    unfold _ConnectorXMLRPC.report. unfold bind at 1. unfold try_except.
    rewrite R. reflexivity.
  - nodb_at R E s NetRpc Report "report"
      (fun d => [d; uid; upasswd; report_name; VList [obj_id];
                 report_data osv_name obj_id report_type; default_context context])
      Hdb.
    unfold _ConnectorNetRPC.report. unfold bind at 1. unfold try_except.
    rewrite R. reflexivity.
Qed.

(** ** Counting polls and sleeps *)

Lemma count_app f (a b : list event) : count f (a ++ b) = (count f a + count f b)%nat.
Proof. unfold count. rewrite filter_app, length_app. reflexivity. Qed.

Lemma net_cycle_returns E n host prt msg v :
  net_cycle E n host prt msg = Return v ->
  net_cycle_events E n host prt msg
  = [NetNew; NetConnect host prt; NetSend msg; NetReceive; NetDisconnect].
Proof.
  unfold net_cycle, net_cycle_events.
  destruct (net_connect E n host prt); [discriminate|].
  destruct (net_send E n msg); [discriminate|].
  destruct (net_receive E n); [|discriminate].
  reflexivity.
Qed.

Lemma status_events_polls E c n db uid upasswd report_id p :
  status_reply E c n db uid upasswd report_id = Return p ->
  count is_status_poll (status_events E c n db uid upasswd report_id) = 1%nat.
Proof.
  unfold status_reply, status_events, reply_of, events_of.
  destruct (cls c); [reflexivity|].
  intros H. rewrite (net_cycle_returns _ _ _ _ _ _ H). reflexivity.
Qed.

Lemma net_cycle_events_sleeps E n host prt msg :
  count is_sleep (net_cycle_events E n host prt msg) = 0%nat.
Proof.
  unfold net_cycle_events.
  destruct (net_connect E n host prt); [reflexivity|].
  destruct (net_send E n msg); [reflexivity|].
  destruct (net_receive E n); reflexivity.
Qed.

Lemma events_of_sleeps E c n ep method args :
  count is_sleep (events_of E c n ep method args) = 0%nat.
Proof.
  unfold events_of. destruct (cls c); [reflexivity|apply net_cycle_events_sleeps].
Qed.

Lemma submit_events_polls E c n db args :
  count is_status_poll (submit_events E c n db args) = 0%nat.
Proof.
  unfold submit_events, events_of. destruct (cls c); [reflexivity|].
  unfold net_cycle_events, request_tuple.
  destruct (net_connect E n _ _); [reflexivity|].
  destruct (net_send E n _); [reflexivity|].
  destruct (net_receive E n); reflexivity.
Qed.

Lemma pending_events_counts E c db uid upasswd report_id :
  forall k n,
    (forall i, (n <= i < n + k)%nat ->
               exists p, status_reply E c i db uid upasswd report_id = Return p
                         /\ ready p = Some false) ->
    count is_status_poll (pending_events E c n k db uid upasswd report_id) = k /\
    count is_sleep (pending_events E c n k db uid upasswd report_id) = k.
Proof.
  induction k as [|k IH]; intros n H; [split; reflexivity|].
  rewrite pending_events_S, !count_app.
  destruct (H n) as (p & Hp & _); [lia|].
  rewrite (status_events_polls _ _ _ _ _ _ _ _ Hp).
  unfold status_events at 1. rewrite events_of_sleeps.
  destruct (IH (S n)) as (I1 & I2); [intros i Hi; apply H; lia|].
  rewrite I1, I2. split; reflexivity.
Qed.

(** ** The loop never hands back a pending payload, and never runs out of
    turns before the ceiling *)

Lemma wait_of_returns_ready c E db uid upasswd report_id :
  forall fuel attempt s p,
    cls (self s) = c ->
    database (self s) = Some db ->
    out (wait_of c fuel uid upasswd report_id attempt E s) = Return (Some p) ->
    ready p = Some true.
Proof.
  induction fuel as [|fuel IH]; intros attempt s p Hc Hdb; [discriminate|].
  rewrite wait_of_step. cbv zeta.
  rewrite (poll_of_status c E s db) by assumption.
  destruct (advance_self s) as (Ac & _ & _ & Adb & _).
  destruct (out (turn c _ _ attempt (advance s))) as [[[q v] a]|e] eqn:Ho;
    [|discriminate].
  apply turn_inv in Ho. destruct Ho as (_ & Hitem & _ & _).
  rewrite turn_final.
  destruct (truthy v) eqn:Hv; cbn [negb].
  - unfold after. cbn [out]. intros H. injection H as <-.
    unfold ready. rewrite Hitem, Hv. reflexivity.
  - unfold after. cbn [out]. apply IH; congruence.
Qed.

Lemma wait_of_bounded c E db uid upasswd report_id :
  forall fuel attempt s,
    cls (self s) = c ->
    database (self s) = Some db ->
    attempt <= 200 ->
    (Z.to_nat (201 - attempt) <= fuel)%nat ->
    let r := wait_of c fuel uid upasswd report_id attempt E s in
    out r <> Return None /\
    (clock s < clock (final r) <= clock s + Z.to_nat (201 - attempt))%nat.
Proof.
  induction fuel as [|fuel IH]; intros attempt s Hc Hdb Ha Hfuel r; subst r; [lia|].
  rewrite wait_of_step. cbv zeta.
  rewrite (poll_of_status c E s db) by assumption.
  destruct (advance_self s) as (Ac & _ & _ & Adb & Aclock).
  destruct (out (turn c _ _ attempt (advance s))) as [[[q v] a]|e] eqn:Ho.
  - apply turn_inv in Ho. destruct Ho as (_ & _ & Hle & Hcase).
    rewrite turn_final.
    destruct Hcase as [(Hv & ->)|(Hv & ->)]; rewrite Hv; cbn [negb];
      unfold after; cbn [out final].
    + split; [discriminate|]. rewrite Aclock. lia.
    + destruct (IH (attempt + 1) (advance s)) as (I1 & I2); try congruence; try lia.
      split; [exact I1|]. rewrite Aclock in I2. lia.
  - cbn [out final]. rewrite turn_final. split; [discriminate|]. rewrite Aclock. lia.
Qed.

(** The loop on a job that stays pending: it stops at the turn that takes
    the counter past 200. *)
Lemma wait_of_ceiling c E db uid upasswd report_id :
  forall (K fuel : nat) (attempt : Z) (s : state),
    cls (self s) = c ->
    database (self s) = Some db ->
    (K < fuel)%nat ->
    attempt + Z.of_nat K = 200 ->
    (forall n, (clock s <= n <= clock s + K)%nat ->
               exists p, status_reply E (self s) n db uid upasswd report_id = Return p
                         /\ ready p = Some false) ->
    let r := wait_of c fuel uid upasswd report_id attempt E s in
    out r = Raise (ExecReportError download_time_exceeded) /\
    events r = pending_events E (self s) (clock s) (S K) db uid upasswd report_id /\
    clock (final r) = (clock s + S K)%nat.
Proof.
  induction K as [|K IH]; intros fuel attempt s Hc Hdb Hfuel Hatt Hpend r;
    subst r; (destruct fuel as [|fuel]; [lia|]);
    rewrite wait_of_step; cbv zeta;
    rewrite (poll_of_status c E s db) by assumption;
    destruct (advance_self s) as (Ac & _ & _ & Adb & Aclock);
    (destruct (Hpend (clock s)) as (p & Hp & Hrp); [lia|]); rewrite Hp.
  - rewrite turn_ceiling by (assumption || lia). cbn [out final events].
    rewrite pending_events_S. cbn [pending_events flat_map seq]. rewrite app_nil_r.
    repeat split; try reflexivity. rewrite Aclock. lia.
  - destruct (turn_pending c p
                (status_events E (self s) (clock s) db uid upasswd report_id)
                attempt (advance s) Hrp) as (v & Hv & ->); [lia|].
    cbn [out final events]. rewrite Hv. cbn [negb]. unfold after. cbn [out final events].
    destruct (IH fuel (attempt + 1) (advance s)) as (Ho & He & Hk);
      try congruence; try lia.
    + intros n Hn. rewrite status_reply_advance. apply Hpend. lia.
    + repeat split; try assumption.
      * rewrite He, pending_events_advance, Aclock.
        rewrite (pending_events_S E (self s) (clock s)). reflexivity.
      * rewrite Hk, Aclock. lia.
Qed.

(** ** The report job: waiting, ceiling *)

(** C1.  On a connector of either class, when the submission is accepted,
    the first [N] status polls ([N <= 200]) return a payload whose
    ['state'] is falsy and poll [N + 1] returns one whose ['state'] is
    truthy, [report] returns that last payload as it is, after exactly
    [N + 1] status polls with one sleep of one second after each of the
    first [N]; and [report] never returns a payload whose ['state'] is
    falsy. *)
Theorem report_waits_until_ready :
  (forall (E : env) (s : state) (N fuel : nat)
          (db uid upasswd report_name osv_name obj_id report_type context : pyval)
          (report_id payload : pyval),
      database (self s) = Some db ->
      submit_reply E (self s) (clock s) db
        (submit_args uid upasswd report_name osv_name obj_id report_type context)
      = Return report_id ->
      (forall i, (i < N)%nat ->
                 exists p, status_reply E (self s) (clock s + 1 + i) db uid upasswd report_id
                           = Return p /\ ready p = Some false) ->
      status_reply E (self s) (clock s + 1 + N) db uid upasswd report_id = Return payload ->
      ready payload = Some true ->
      (N <= 200)%nat ->
      (200 < fuel)%nat ->
      let r := report fuel uid upasswd report_name osv_name obj_id report_type context E s in
      out r = Return (Some payload) /\
      events r
      = submit_events E (self s) (clock s) db
          (submit_args uid upasswd report_name osv_name obj_id report_type context)
        ++ pending_events E (self s) (clock s + 1) N db uid upasswd report_id
        ++ status_events E (self s) (clock s + 1 + N) db uid upasswd report_id /\
      count is_status_poll (events r) = S N /\
      count is_sleep (events r) = N /\
      clock (final r) = (clock s + 1 + S N)%nat)
  /\
  (forall (E : env) (s : state) (fuel : nat)
          (uid upasswd report_name osv_name obj_id report_type context p : pyval),
      out (report fuel uid upasswd report_name osv_name obj_id report_type context E s)
      = Return (Some p) ->
      ready p = Some true).
Proof.
  split.
  - intros E s N fuel db uid upasswd report_name osv_name obj_id report_type context
           report_id payload Hdb Hsub Hpend Hlast Hready HN Hfuel r.
    subst r. rewrite (report_run E s db) by assumption. cbv zeta. rewrite Hsub.
    destruct (advance_self s) as (Ac & _ & _ & Adb & Aclock).
    assert (Hpend' : forall n, (clock (advance s) <= n < clock (advance s) + N)%nat ->
              exists p, status_reply E (self (advance s)) n db uid upasswd report_id
                        = Return p /\ ready p = Some false).
    { intros n Hn. rewrite status_reply_advance.
      replace n with (clock s + 1 + (n - clock s - 1))%nat by lia. apply Hpend. lia. }
    destruct (wait_of_ready (cls (self s)) E db uid upasswd report_id payload
                N fuel 0 (advance s)) as (Ho & He & Hk & _); try congruence; try lia.
    + exact Hpend'.
    + rewrite status_reply_advance, Aclock.
      replace (S (clock s) + N)%nat with (clock s + 1 + N)%nat by lia. exact Hlast.
    + unfold after. cbn [out final events].
      rewrite He, pending_events_advance, status_events_advance, Aclock.
      replace (S (clock s)) with (clock s + 1)%nat by lia.
      assert (Hpend'' : forall i, (clock s + 1 <= i < clock s + 1 + N)%nat ->
                exists p, status_reply E (self s) i db uid upasswd report_id
                          = Return p /\ ready p = Some false).
      { intros i Hi. replace i with (clock s + 1 + (i - clock s - 1))%nat by lia.
        apply Hpend. lia. }
      destruct (pending_events_counts E (self s) db uid upasswd report_id N
                  (clock s + 1)%nat Hpend'') as (C1 & C2).
      repeat split.
      * exact Ho.
      * rewrite !count_app, submit_events_polls, C1,
          (status_events_polls _ _ _ _ _ _ _ _ Hlast). lia.
      * rewrite !count_app, C2. unfold submit_events, status_events.
        rewrite !events_of_sleeps. lia.
      * rewrite Hk, Aclock. lia.
  - intros E s fuel uid upasswd report_name osv_name obj_id report_type context p.
    destruct (database (self s)) as [db|] eqn:Hdb.
    + rewrite (report_run E s db) by assumption. cbv zeta.
      destruct (submit_reply E (self s) (clock s) db _) as [rid|e]; [|discriminate].
      unfold after. cbn [out].
      destruct (advance_self s) as (Ac & _ & _ & Adb & _).
      apply (wait_of_returns_ready (cls (self s)) E db); congruence.
    + rewrite report_nodb by assumption. discriminate.
Qed.

Lemma report_waits_until_ready_witness :
  let r := report 201 (VInt 1) (VStr "pw") (VStr "sale.order") (VStr "sale.order")
                  (VInt 4) (VStr "pdf") VNone ready_at_third (logged_in NetRpc) in
  out r = Return (Some ready_payload) /\
  count is_status_poll (events r) = 3%nat /\
  count is_sleep (events r) = 2%nat.
Proof.
  destruct (proj1 report_waits_until_ready ready_at_third (logged_in NetRpc) 2%nat 201%nat
              (VStr "db") (VInt 1) (VStr "pw") (VStr "sale.order") (VStr "sale.order")
              (VInt 4) (VStr "pdf") VNone (VInt 7) ready_payload)
    as (Ho & _ & Hp & Hs & _).
  - reflexivity.
  - reflexivity.
  - intros i Hi. exists pending_payload.
    destruct i as [|[|i]]; [split; reflexivity|split; reflexivity|lia].
  - reflexivity.
  - reflexivity.
  - lia.
  - lia.
  - exact (conj Ho (conj Hp Hs)).
Defined.

(** C2.  On a connector of either class the attempt counter never
    decreases, grows by one at each poll that finds the job pending and by
    nothing otherwise; the loop ends within 201 status polls whatever the
    transport answers; and when every poll finds the job pending, it ends
    at poll 201, when the counter passes 200, by raising [ExecReportError]
    with the "Download time exceeded" message, no payload being
    returned. *)
Theorem report_gives_up_after_200_attempts :
  (forall (E : env) (s : state) (uid upasswd report_id p v : pyval) (attempt a : Z),
      out (poll_of (cls (self s)) uid upasswd report_id attempt E s) = Return (p, v, a) ->
      attempt <= a <= 200 /\
      (truthy v = false -> a = attempt + 1) /\
      (truthy v = true -> a = attempt))
  /\
  (forall (E : env) (s : state) (fuel : nat)
          (uid upasswd report_name osv_name obj_id report_type context : pyval),
      (200 < fuel)%nat ->
      let r := report fuel uid upasswd report_name osv_name obj_id report_type context E s in
      out r <> Return None /\
      (clock (final r) <= clock s + 1 + 201)%nat)
  /\
  (forall (E : env) (s : state) (fuel : nat)
          (db uid upasswd report_name osv_name obj_id report_type context report_id : pyval),
      database (self s) = Some db ->
      submit_reply E (self s) (clock s) db
        (submit_args uid upasswd report_name osv_name obj_id report_type context)
      = Return report_id ->
      (forall i, (i <= 200)%nat ->
                 exists p, status_reply E (self s) (clock s + 1 + i) db uid upasswd report_id
                           = Return p /\ ready p = Some false) ->
      (200 < fuel)%nat ->
      let r := report fuel uid upasswd report_name osv_name obj_id report_type context E s in
      out r = Raise (ExecReportError download_time_exceeded) /\
      events r
      = submit_events E (self s) (clock s) db
          (submit_args uid upasswd report_name osv_name obj_id report_type context)
        ++ pending_events E (self s) (clock s + 1) 201 db uid upasswd report_id /\
      count is_status_poll (events r) = 201%nat /\
      count is_sleep (events r) = 201%nat).
Proof.
  split; [|split].
  - intros E s uid upasswd report_id p v attempt a.
    destruct (database (self s)) as [db|] eqn:Hdb.
    + rewrite (poll_of_status (cls (self s)) E s db) by auto.
      intros Ho. apply turn_inv in Ho. destruct Ho as (_ & _ & Hle & Hcase).
      destruct Hcase as [(Hv & ->)|(Hv & ->)]; rewrite Hv;
        repeat split; try lia; try discriminate; auto.
    + rewrite poll_of_nodb by assumption. discriminate.
  - intros E s fuel uid upasswd report_name osv_name obj_id report_type context Hfuel r.
    subst r. destruct (database (self s)) as [db|] eqn:Hdb.
    + rewrite (report_run E s db) by assumption. cbv zeta.
      destruct (advance_self s) as (Ac & _ & _ & Adb & Aclock).
      destruct (submit_reply E (self s) (clock s) db _) as [rid|e].
      * unfold after. cbn [out final].
        destruct (wait_of_bounded (cls (self s)) E db uid upasswd rid fuel 0 (advance s))
          as (I1 & I2); try congruence; try lia.
        split; [exact I1|]. rewrite Aclock in I2. lia.
      * cbn [out final]. split; [discriminate|]. rewrite Aclock. lia.
    + rewrite report_nodb by assumption. cbn [out final]. split; [discriminate|lia].
  - intros E s fuel db uid upasswd report_name osv_name obj_id report_type context
           report_id Hdb Hsub Hpend Hfuel r.
    subst r. rewrite (report_run E s db) by assumption. cbv zeta. rewrite Hsub.
    destruct (advance_self s) as (Ac & _ & _ & Adb & Aclock).
    destruct (wait_of_ceiling (cls (self s)) E db uid upasswd report_id
                200 fuel 0 (advance s)) as (Ho & He & _); try congruence; try lia.
    + intros n Hn. rewrite status_reply_advance.
      replace n with (clock s + 1 + (n - clock s - 1))%nat by lia. apply Hpend. lia.
    + unfold after. cbn [out final events].
      rewrite He, pending_events_advance, Aclock.
      replace (S (clock s)) with (clock s + 1)%nat by lia.
      assert (Hpend' : forall i, (clock s + 1 <= i < clock s + 1 + 201)%nat ->
                exists p, status_reply E (self s) i db uid upasswd report_id
                          = Return p /\ ready p = Some false).
      { intros i Hi. replace i with (clock s + 1 + (i - clock s - 1))%nat by lia.
        apply Hpend. lia. }
      destruct (pending_events_counts E (self s) db uid upasswd report_id 201
                  (clock s + 1)%nat Hpend') as (C1 & C2).
      repeat split.
      * exact Ho.
      * rewrite count_app, submit_events_polls, C1. reflexivity.
      * rewrite count_app, C2. unfold submit_events. rewrite events_of_sleeps. reflexivity.
Qed.

Lemma report_gives_up_after_200_attempts_witness :
  let r := report 201 (VInt 1) (VStr "pw") (VStr "sale.order") (VStr "sale.order")
                  (VInt 4) (VStr "pdf") VNone never_ready (logged_in XmlRpc) in
  (out r = Raise (ExecReportError download_time_exceeded) /\
   count is_status_poll (events r) = 201%nat /\
   (clock (final r) <= 202)%nat)
  /\
  (out (poll_of XmlRpc (VInt 1) (VStr "pw") (VInt 7) 0 never_ready
                (tick (logged_in XmlRpc)))
   = Return (pending_payload, VBool false, 1) /\
   0 <= 1 <= 200).
Proof.
  split.
  - destruct (proj2 (proj2 report_gives_up_after_200_attempts)
                never_ready (logged_in XmlRpc) 201%nat
                (VStr "db") (VInt 1) (VStr "pw") (VStr "sale.order") (VStr "sale.order")
                (VInt 4) (VStr "pdf") VNone (VInt 7))
      as (Ho & _ & Hp & _).
    + reflexivity.
    + reflexivity.
    + intros i Hi. exists pending_payload. split; reflexivity.
    + lia.
    + destruct (proj1 (proj2 report_gives_up_after_200_attempts)
                  never_ready (logged_in XmlRpc) 201%nat
                  (VInt 1) (VStr "pw") (VStr "sale.order") (VStr "sale.order")
                  (VInt 4) (VStr "pdf") VNone) as (_ & Hk); [lia|].
      exact (conj Ho (conj Hp Hk)).
  - split; [reflexivity|].
    apply (proj1 report_gives_up_after_200_attempts never_ready
             (tick (logged_in XmlRpc)) (VInt 1) (VStr "pw") (VInt 7)
             pending_payload (VBool false) 0 1).
    reflexivity.
Defined.

(** ** [login], [execute] and [exec_workflow] as one guarded call *)

Lemma execute_run E s db uid upasswd osv_name method args :
  database (self s) = Some db ->
  execute uid upasswd osv_name method args E s
  = one_call E s (execute_failure (cls (self s))) Object "execute"
             (db :: uid :: upasswd :: osv_name :: method :: args).
Proof.
  intros Hdb. unfold execute, one_call. destruct (cls (self s)) eqn:Hc.
  - call_at R E s db Object "execute"
      (fun d => d :: uid :: upasswd :: osv_name :: method :: args) Hdb Hc.
    unfold _ConnectorXMLRPC.execute, try_except. rewrite R. cbn [out final events].
    destruct (reply_of E (self s) (clock s) Object "execute" _) as [v|e]; [reflexivity|].
    unfold execute_failure.
    destruct (is_socket_error e);
      [|destruct (is_Fault e); [|destruct (is_xmlrpclib_Error e); [|reflexivity]]];
      unfold bind, exc_attr;
      try destruct (strerror_of e); try destruct (faultCode_of e);
      try destruct (faultString_of e);
      unfold after, ret, raise; cbn [out final events]; rewrite ?app_nil_r; reflexivity.
  - call_at R E s db Object "execute"
      (fun d => d :: uid :: upasswd :: osv_name :: method :: args) Hdb Hc.
    unfold _ConnectorNetRPC.execute, try_except. rewrite R. cbn [out final events].
    destruct (reply_of E (self s) (clock s) Object "execute" _) as [v|e]; [reflexivity|].
    destruct e; unfold after, raise; cbn [out final events execute_failure];
      rewrite ?app_nil_r; reflexivity.
Qed.

Lemma exec_workflow_run E s db uid upasswd osv_name signal obj_id :
  database (self s) = Some db ->
  exec_workflow uid upasswd osv_name signal obj_id E s
  = one_call E s (workflow_failure (cls (self s))) Object "exec_workflow"
             [db; uid; upasswd; osv_name; signal; obj_id].
Proof.
  intros Hdb. unfold exec_workflow, one_call. destruct (cls (self s)) eqn:Hc.
  - call_at R E s db Object "exec_workflow"
      (fun d => [d; uid; upasswd; osv_name; signal; obj_id]) Hdb Hc.
    unfold _ConnectorXMLRPC.exec_workflow, try_except. rewrite R. cbn [out final events].
    destruct (reply_of E (self s) (clock s) Object "exec_workflow" _) as [v|e];
      [reflexivity|].
    unfold workflow_failure. destruct (is_Exception e); [|reflexivity].
    unfold after, raise; cbn [out final events]; rewrite ?app_nil_r; reflexivity.
  - call_at R E s db Object "exec_workflow"
      (fun d => [d; uid; upasswd; osv_name; signal; obj_id]) Hdb Hc.
    unfold _ConnectorNetRPC.exec_workflow, try_except. rewrite R. cbn [out final events].
    destruct (reply_of E (self s) (clock s) Object "exec_workflow" _) as [v|e];
      [reflexivity|].
    unfold workflow_failure. destruct (is_NetRPCError e); [|reflexivity].
    unfold after, raise; cbn [out final events]; rewrite ?app_nil_r; reflexivity.
Qed.

Lemma with_database_self d s :
  cls (self (with_database d s)) = cls (self s) /\
  server (self (with_database d s)) = server (self s) /\
  port (self (with_database d s)) = port (self s) /\
  database (self (with_database d s)) = Some d /\
  clock (with_database d s) = clock s.
Proof. unfold with_database. cbn. auto. Qed.

Lemma set_database_run d E s :
  set_database d E s = mkRun (Return tt) (with_database d s) [].
Proof. reflexivity. Qed.

Lemma login_run E s database user passwd :
  login database user passwd E s
  = one_call E (with_database database s) (login_failure (cls (self s)))
             Common "login" [database; user; passwd].
Proof.
  pose proof (with_database_self database s) as (Wc & _ & _ & Wdb & Wk).
  unfold login, one_call. destruct (cls (self s)) eqn:Hc.
  - call_at R E (with_database database s) database Common "login"
      (fun d => [d; user; passwd]) Wdb Wc.
    unfold _ConnectorXMLRPC.login. unfold bind at 1. rewrite set_database_run.
    cbn [out final events]. unfold try_except. rewrite R.
    unfold after at 1. cbn [out final events app].
    destruct (reply_of E (self (with_database database s)) _ Common "login" _) as [v|e];
      [reflexivity|].
    unfold login_failure.
    destruct (is_Fault e); [|destruct (is_socket_error e); [|reflexivity]];
      unfold bind, exc_attr;
      try destruct (strerror_of e); try destruct (faultCode_of e);
      unfold after, ret, raise; cbn [out final events]; rewrite ?app_nil_r; reflexivity.
  - call_at R E (with_database database s) database Common "login"
      (fun d => [d; user; passwd]) Wdb Wc.
    unfold _ConnectorNetRPC.login. unfold bind at 1. rewrite set_database_run.
    cbn [out final events]. unfold try_except. rewrite R.
    unfold after at 1. cbn [out final events app].
    destruct (reply_of E (self (with_database database s)) _ Common "login" _) as [v|e];
      [reflexivity|].
    destruct e; unfold after, raise; cbn [out final events login_failure];
      rewrite ?app_nil_r; reflexivity.
Qed.

(** ** A failing status poll ends the loop at once *)

Lemma wait_of_failure c E db uid upasswd report_id e :
  forall (N fuel : nat) (attempt : Z) (s : state),
    cls (self s) = c ->
    database (self s) = Some db ->
    (N < fuel)%nat ->
    attempt + Z.of_nat N <= 200 ->
    (forall n, (clock s <= n < clock s + N)%nat ->
               exists p, status_reply E (self s) n db uid upasswd report_id = Return p
                         /\ ready p = Some false) ->
    status_reply E (self s) (clock s + N) db uid upasswd report_id = Raise e ->
    let r := wait_of c fuel uid upasswd report_id attempt E s in
    out r = Raise (if caught c e then ExecReportError download_failed else e) /\
    events r = pending_events E (self s) (clock s) N db uid upasswd report_id
               ++ status_events E (self s) (clock s + N) db uid upasswd report_id /\
    clock (final r) = (clock s + N + 1)%nat.
Proof.
  induction N as [|N IH]; intros fuel attempt s Hc Hdb Hfuel Hatt Hpend Hlast r;
    subst r; (destruct fuel as [|fuel]; [lia|]);
    rewrite wait_of_step; cbv zeta;
    rewrite (poll_of_status c E s db) by assumption;
    destruct (advance_self s) as (Ac & _ & _ & Adb & Aclock).
  - rewrite Nat.add_0_r in Hlast. rewrite Hlast. cbn [turn out final events].
    rewrite Nat.add_0_r. cbn [pending_events flat_map seq app].
    repeat split. rewrite Aclock. lia.
  - destruct (Hpend (clock s)) as (p & Hp & Hrp); [lia|]. rewrite Hp.
    destruct (turn_pending c p
                (status_events E (self s) (clock s) db uid upasswd report_id)
                attempt (advance s) Hrp) as (v & Hv & ->); [lia|].
    cbn [out final events]. rewrite Hv. cbn [negb]. unfold after. cbn [out final events].
    destruct (IH fuel (attempt + 1) (advance s)) as (Ho & He & Hk);
      try congruence; try lia.
    + intros n Hn. rewrite status_reply_advance. apply Hpend. lia.
    + rewrite status_reply_advance, Aclock.
      replace (S (clock s) + N)%nat with (clock s + S N)%nat by lia. exact Hlast.
    + repeat split; try assumption.
      * rewrite He, pending_events_advance, status_events_advance, Aclock.
        rewrite pending_events_S.
        replace (S (clock s) + N)%nat with (clock s + S N)%nat by lia.
        rewrite <- !app_assoc. reflexivity.
      * rewrite Hk, Aclock. lia.
Qed.

(** After an accepted submission and [N] polls that found the job pending,
    a status call that raises [e] ends [report]: no further call is made,
    an error of the class the loop catches becomes the fixed
    [ExecReportError], and any other exception leaves [report] as it is. *)
Lemma report_poll_failure E s (N fuel : nat)
      db uid upasswd report_name osv_name obj_id report_type context report_id e :
  database (self s) = Some db ->
  submit_reply E (self s) (clock s) db
    (submit_args uid upasswd report_name osv_name obj_id report_type context)
  = Return report_id ->
  (forall i, (i < N)%nat ->
             exists p, status_reply E (self s) (clock s + 1 + i) db uid upasswd report_id
                       = Return p /\ ready p = Some false) ->
  status_reply E (self s) (clock s + 1 + N) db uid upasswd report_id = Raise e ->
  (N <= 200)%nat ->
  (200 < fuel)%nat ->
  let r := report fuel uid upasswd report_name osv_name obj_id report_type context E s in
  out r = Raise (if caught (cls (self s)) e then ExecReportError download_failed else e) /\
  clock (final r) = (clock s + 1 + S N)%nat.
Proof.
  intros Hdb Hsub Hpend Hlast HN Hfuel r.
  subst r. rewrite (report_run E s db) by assumption. cbv zeta. rewrite Hsub.
  destruct (advance_self s) as (Ac & _ & _ & Adb & Aclock).
  destruct (wait_of_failure (cls (self s)) E db uid upasswd report_id e
              N fuel 0 (advance s)) as (Ho & _ & Hk); try congruence; try lia.
  - intros n Hn. rewrite status_reply_advance.
    replace n with (clock s + 1 + (n - clock s - 1))%nat by lia. apply Hpend. lia.
  - rewrite status_reply_advance, Aclock.
    replace (S (clock s) + N)%nat with (clock s + 1 + N)%nat by lia. exact Hlast.
  - unfold after. cbn [out final]. split; [exact Ho|]. rewrite Hk, Aclock. lia.
Qed.

(** C3.  The XML-RPC [report] guards its status call with
    [except xmlrpclib.Error] only.  On a logged-in XML-RPC connector whose
    job was accepted, a [socket.error] raised by the first status poll
    leaves [report] as that [socket.error], detail included, and not as
    [ExecReportError]; one status poll was made. *)
Theorem report_poll_socket_error_escapes :
  let r := _ConnectorXMLRPC.report 201 (VInt 1) (VStr "pw") (VStr "sale.order")
             (VStr "sale.order") (VInt 4) (VStr "pdf") VNone
             refused_at_first_poll (logged_in XmlRpc) in
  out r = Raise (SocketError (VStr "Connection refused")) /\
  has_kind OpReport (SocketError (VStr "Connection refused")) = false /\
  transport_failure XmlRpc (SocketError (VStr "Connection refused")) = true /\
  count is_status_poll (events r) = 1%nat.
Proof. vm_compute. repeat split. Qed.

(** C4.  Transport failures that leave an XML-RPC method under another
    kind than the one of the operation: a [socket.error] during the
    submission of [report] leaves as [socket.error]; a
    [xmlrpclib.ProtocolError] during [login] leaves as [ProtocolError];
    a [xmlrpclib.ProtocolError] during [execute] reaches the clause for
    [xmlrpclib.Error], which reads [exc.faultCode] and raises
    [AttributeError]. *)
Theorem transport_failure_leaves_unwrapped :
  let refused := SocketError (VStr "Connection refused") in
  let bad_gateway := ProtocolError "localhost:8069/xmlrpc/common" 502 "Bad Gateway" in
  (transport_failure XmlRpc refused = true /\
   out (_ConnectorXMLRPC.report 201 (VInt 1) (VStr "pw") (VStr "sale.order")
          (VStr "sale.order") (VInt 4) (VStr "pdf") VNone
          (answering (Raise refused)) (logged_in XmlRpc))
   = Raise refused /\
   has_kind OpReport refused = false)
  /\
  (transport_failure XmlRpc bad_gateway = true /\
   out (_ConnectorXMLRPC.login (VStr "db") (VStr "admin") (VStr "pw")
          (answering (Raise bad_gateway)) (just_built XmlRpc))
   = Raise bad_gateway /\
   has_kind OpLogin bad_gateway = false)
  /\
  (out (_ConnectorXMLRPC.execute (VInt 1) (VStr "pw") (VStr "res.partner") (VStr "read")
          [VInt 42] (answering (Raise bad_gateway)) (logged_in XmlRpc))
   = Raise (AttributeError "faultCode") /\
   has_kind OpExecute (AttributeError "faultCode") = false).
Proof. vm_compute. repeat split. Qed.

(** ** [exec_workflow] *)

(** C7.  The NetRPC [exec_workflow] guards its request with
    [except netrpc.NetRPCError] only.  On a logged-in NetRPC connector
    whose server refuses the connection, the [socket.error] raised by
    [connect] leaves [exec_workflow] as that [socket.error], cause
    included, and not as [ExecWorkflowError] with the fixed message; the
    XML-RPC [exec_workflow], under [except Exception], turns the same
    failure into the fixed [ExecWorkflowError]. *)
Theorem netrpc_exec_workflow_socket_error_escapes :
  let refused := SocketError (VStr "Connection refused") in
  let r := _ConnectorNetRPC.exec_workflow (VInt 1) (VStr "pw") (VStr "sale.order")
             (VStr "order_confirm") (VInt 4) connection_refused (logged_in NetRpc) in
  transport_failure NetRpc refused = true /\
  out r = Raise refused /\
  out r <> Raise (ExecWorkflowError (MLit "Workflow query has failed.")) /\
  has_kind OpExecWorkflow refused = false /\
  events r = [NetNew; NetConnect (VStr "localhost") (VInt 8069)] /\
  out (_ConnectorXMLRPC.exec_workflow (VInt 1) (VStr "pw") (VStr "sale.order")
         (VStr "order_confirm") (VInt 4) connection_refused (logged_in XmlRpc))
  = Raise (ExecWorkflowError (MLit "Workflow query has failed.")).
Proof. vm_compute. repeat split. discriminate. Qed.

(** ** The factory and the constructors *)

Lemma assoc_none_iff {A : Type} (k : string) (d : list (string * A)) :
  assoc k d = None <-> ~ In k (map fst d).
Proof.
  induction d as [|[k' v] d IH]; cbn.
  - tauto.
  - destruct (String.eqb_spec k k') as [->|Hne].
    + split; [discriminate|]. intros H. exfalso. apply H. left. reflexivity.
    + rewrite IH. split.
      * intros H [Heq|Hin]; [congruence|tauto].
      * tauto.
Qed.

Lemma init_stores srv prt c conn :
  construct c srv prt = Return conn ->
  cls conn = c /\ server conn = srv /\ port conn = prt /\ database conn = None.
Proof.
  unfold construct, _ConnectorXMLRPC.__init__, _ConnectorNetRPC.__init__,
    _Connector.__init__.
  destruct c; destruct (py_int prt); try discriminate;
    intros H; injection H as <-; cbn; auto.
Qed.

(** A port that [int] converts is accepted and stored as given. *)
Lemma init_accepts_int_port srv prt c z :
  py_int prt = IntOk z ->
  exists conn, construct c srv prt = Return conn /\ port conn = prt /\ server conn = srv.
Proof.
  intros H.
  unfold construct, _ConnectorXMLRPC.__init__, _ConnectorNetRPC.__init__,
    _Connector.__init__.
  destruct c; rewrite H; eexists; repeat split.
Qed.

(** A port on which [int] raises [ValueError] is refused with
    [ConnectorError]. *)
Lemma init_refuses_value_error srv prt c :
  py_int prt = IntValueError ->
  construct c srv prt
  = Raise (ConnectorError
             (MFormat "The port '{0}' is invalid. An integer is required." [prt])).
Proof.
  intros H.
  unfold construct, _ConnectorXMLRPC.__init__, _ConnectorNetRPC.__init__,
    _Connector.__init__.
  destruct c; rewrite H; reflexivity.
Qed.

(** C5.  For a protocol identifier that is not a key of the dictionary,
    [get_connector] raises [ConnectorError] whose message is the text
    "The protocol '{0}' is not supported. Please choose a protocol among
    these ones: {1}" formatted with the identifier and with the list of
    the keys, which holds ["xmlrpc"] and ["netrpc"] and nothing else.
    The keys are exactly these two.  For each of them [get_connector] is
    the constructor of the class applied to the server and the port, and
    nothing more; with a port that [int] converts it returns the instance
    of that class holding the server and the port given, the XML-RPC one
    with its URL, neither with a database; and whatever it returns is an
    instance of the class of the identifier with that server and port. *)
Theorem get_connector_selects_class :
  (forall (srv prt : pyval) (protocol : string),
      ~ In protocol (map fst connectors) ->
      exists ids,
        get_connector srv prt protocol
        = Raise (ConnectorError
                   (MFormat
                      "The protocol '{0}' is not supported. Please choose a protocol among these ones: {1}"
                      [VStr protocol; VList ids])) /\
        In (VStr "xmlrpc") ids /\ In (VStr "netrpc") ids /\ List.length ids = 2%nat)
  /\
  (forall (protocol : string),
      In protocol (map fst connectors) <-> protocol = "xmlrpc" \/ protocol = "netrpc")
  /\
  (forall (srv prt : pyval),
      get_connector srv prt "xmlrpc" = _ConnectorXMLRPC.__init__ srv prt /\
      get_connector srv prt "netrpc" = _ConnectorNetRPC.__init__ srv prt)
  /\
  (forall (srv prt : pyval) (z : Z),
      py_int prt = IntOk z ->
      get_connector srv prt "xmlrpc"
      = Return (mkConnector XmlRpc srv prt
                  (Some (MFormat "http://{server}:{port}/xmlrpc" [srv; prt])) None None) /\
      get_connector srv prt "netrpc"
      = Return (mkConnector NetRpc srv prt None None None))
  /\
  (forall (srv prt : pyval) (protocol : string) (conn : connector),
      get_connector srv prt protocol = Return conn ->
      assoc protocol connectors = Some (cls conn) /\
      server conn = srv /\ port conn = prt /\ database conn = None).
Proof.
  split; [|split; [|split; [|split]]].
  - intros srv prt protocol Hout. apply assoc_none_iff in Hout.
    unfold get_connector. rewrite Hout.
    eexists. split; [reflexivity|]. cbn. auto.
  - intros protocol. cbn. split.
    + intros [H|[H|[]]]; auto.
    + intros [H|H]; auto.
  - intros srv prt. split; reflexivity.
  - intros srv prt z Hz. unfold get_connector. cbn [assoc connectors String.eqb].
    cbn. unfold _ConnectorXMLRPC.__init__, _ConnectorNetRPC.__init__, _Connector.__init__.
    rewrite Hz. split; reflexivity.
  - intros srv prt protocol conn. unfold get_connector.
    destruct (assoc protocol connectors) as [c|]; [|discriminate].
    intros H. apply init_stores in H. destruct H as (<- & Hs & Hp & Hd). auto.
Qed.

Lemma get_connector_selects_class_witness :
  (exists ids,
      get_connector (VStr "localhost") (VInt 8069) "jsonrpc"
      = Raise (ConnectorError
                 (MFormat
                    "The protocol '{0}' is not supported. Please choose a protocol among these ones: {1}"
                    [VStr "jsonrpc"; VList ids])) /\
      In (VStr "xmlrpc") ids /\ In (VStr "netrpc") ids /\ List.length ids = 2%nat)
  /\
  (get_connector (VStr "localhost") (VStr "8070") "netrpc"
   = Return (mkConnector NetRpc (VStr "localhost") (VStr "8070") None None None))
  /\
  (assoc "xmlrpc" connectors = Some (cls (self (just_built XmlRpc))) /\
   server (self (just_built XmlRpc)) = VStr "localhost" /\
   port (self (just_built XmlRpc)) = VInt 8069 /\
   database (self (just_built XmlRpc)) = None).
Proof.
  split; [|split].
  - apply (proj1 get_connector_selects_class (VStr "localhost") (VInt 8069) "jsonrpc").
    cbn. intros [H|[H|[]]]; discriminate.
  - exact (proj2 (proj1 (proj2 (proj2 (proj2 get_connector_selects_class)))
                   (VStr "localhost") (VStr "8070") 8070 eq_refl)).
  - apply (proj2 (proj2 (proj2 (proj2 get_connector_selects_class)))
             (VStr "localhost") (VInt 8069) "xmlrpc" (self (just_built XmlRpc))).
    reflexivity.
Defined.

Lemma just_built_constructed (c : variant) :
  construct c (VStr "localhost") (VInt 8069) = Return (self (just_built c)).
Proof. destruct c; reflexivity. Qed.

(** C6.  [_Connector.__init__] guards [int(port)] with [except ValueError]
    only.  For the port [None], [int] raises [TypeError]: the constructors
    and [get_connector] raise [TypeError], not [ConnectorError]. *)
Theorem port_none_raises_type_error :
  py_int VNone = IntTypeError /\
  _ConnectorXMLRPC.__init__ (VStr "localhost") VNone = Raise TypeError /\
  _ConnectorNetRPC.__init__ (VStr "localhost") VNone = Raise TypeError /\
  get_connector (VStr "localhost") VNone "xmlrpc" = Raise TypeError /\
  get_connector (VStr "localhost") VNone "netrpc" = Raise TypeError.
Proof. repeat split. Qed.

(** ** Before [login] *)

Lemma execute_nodb E s uid upasswd osv_name method args :
  database (self s) = None ->
  execute uid upasswd osv_name method args E s
  = mkRun (Raise (AttributeError "database")) s [].
Proof.
  intros Hdb. unfold execute. destruct (cls (self s)).
  - nodb_at R E s XmlRpc Object "execute"
      (fun d => d :: uid :: upasswd :: osv_name :: method :: args) Hdb.
    unfold _ConnectorXMLRPC.execute, try_except. rewrite R. reflexivity.
  - nodb_at R E s NetRpc Object "execute"
      (fun d => d :: uid :: upasswd :: osv_name :: method :: args) Hdb.
    unfold _ConnectorNetRPC.execute, try_except. rewrite R. reflexivity.
Qed.

Lemma exec_workflow_nodb E s uid upasswd osv_name signal obj_id :
  database (self s) = None ->
  exec_workflow uid upasswd osv_name signal obj_id E s
  = mkRun (Raise (match cls (self s) with
                  | XmlRpc => ExecWorkflowError workflow_failed
                  | NetRpc => AttributeError "database"
                  end)) s [].
Proof.
  intros Hdb. unfold exec_workflow. destruct (cls (self s)).
  - nodb_at R E s XmlRpc Object "exec_workflow"
      (fun d => [d; uid; upasswd; osv_name; signal; obj_id]) Hdb.
    unfold _ConnectorXMLRPC.exec_workflow, try_except. rewrite R. reflexivity.
  - nodb_at R E s NetRpc Object "exec_workflow"
      (fun d => [d; uid; upasswd; osv_name; signal; obj_id]) Hdb.
    unfold _ConnectorNetRPC.exec_workflow, try_except. rewrite R. reflexivity.
Qed.

(** C9, as stated, fails: on an XML-RPC connector just built,
    [exec_workflow] evaluates [self.database] inside [try], and
    [except Exception] turns the [AttributeError] into
    [ExecWorkflowError], the kind of the operation. *)
Lemma exec_workflow_before_login_is_typed :
  let r := exec_workflow (VInt 1) (VStr "pw") (VStr "sale.order") (VStr "order_confirm")
             (VInt 4) (answering (Return (VBool true))) (just_built XmlRpc) in
  database (self (just_built XmlRpc)) = None /\
  out r = Raise (ExecWorkflowError (MLit "Workflow query has failed.")) /\
  out r <> Raise (AttributeError "database") /\
  has_kind OpExecWorkflow (ExecWorkflowError (MLit "Workflow query has failed.")) = true.
Proof. vm_compute. repeat split. discriminate. Qed.

(** C9, amended.  On a connector whose [database] attribute does not
    exist, [execute] and [report] of either class and [exec_workflow] of
    the NetRPC class raise [AttributeError] for [database], while
    [exec_workflow] of the XML-RPC class raises [ExecWorkflowError] with
    its fixed message; in every case no remote call is made and the
    connector is left as it was. *)
Theorem calls_before_login :
  forall (E : env) (s : state),
    database (self s) = None ->
    (forall uid upasswd osv_name method args,
        execute uid upasswd osv_name method args E s
        = mkRun (Raise (AttributeError "database")) s [])
    /\
    (forall fuel uid upasswd report_name osv_name obj_id report_type context,
        report fuel uid upasswd report_name osv_name obj_id report_type context E s
        = mkRun (Raise (AttributeError "database")) s [])
    /\
    (forall uid upasswd osv_name signal obj_id,
        cls (self s) = NetRpc ->
        exec_workflow uid upasswd osv_name signal obj_id E s
        = mkRun (Raise (AttributeError "database")) s [])
    /\
    (forall uid upasswd osv_name signal obj_id,
        cls (self s) = XmlRpc ->
        exec_workflow uid upasswd osv_name signal obj_id E s
        = mkRun (Raise (ExecWorkflowError (MLit "Workflow query has failed."))) s []).
Proof.
  intros E s Hdb. repeat split; intros.
  - apply execute_nodb; assumption.
  - apply report_nodb; assumption.
  - rewrite exec_workflow_nodb by assumption. rewrite H. reflexivity.
  - rewrite exec_workflow_nodb by assumption. rewrite H. reflexivity.
Qed.

Lemma calls_before_login_witness :
  out (execute (VInt 1) (VStr "pw") (VStr "res.partner") (VStr "read") [VInt 42]
         (answering (Return (VBool true))) (just_built NetRpc))
  = Raise (AttributeError "database")
  /\
  out (exec_workflow (VInt 1) (VStr "pw") (VStr "sale.order") (VStr "order_confirm")
         (VInt 4) (answering (Return (VBool true))) (just_built NetRpc))
  = Raise (AttributeError "database")
  /\
  out (exec_workflow (VInt 1) (VStr "pw") (VStr "sale.order") (VStr "order_confirm")
         (VInt 4) (answering (Return (VBool true))) (just_built XmlRpc))
  = Raise (ExecWorkflowError (MLit "Workflow query has failed.")).
Proof.
  destruct (calls_before_login (answering (Return (VBool true))) (just_built NetRpc))
    as (He & _ & Hw & _); [reflexivity|].
  destruct (calls_before_login (answering (Return (VBool true))) (just_built XmlRpc))
    as (_ & _ & _ & Hx); [reflexivity|].
  split; [|split].
  - exact (f_equal out (He _ _ _ _ _)).
  - exact (f_equal out (Hw _ _ _ _ _ eq_refl)).
  - exact (f_equal out (Hx _ _ _ _ _ eq_refl)).
Defined.

(** ** The database name after [login] *)







(** ** The NetRPC request cycle *)

Lemma turn_events c reply evs attempt s' :
  events (turn c reply evs attempt s') = evs \/
  events (turn c reply evs attempt s') = evs ++ [Sleep 1].
Proof.
  unfold turn. destruct reply as [p|e]; [|left; reflexivity].
  destruct (item_state p) as [v|e]; [|left; reflexivity].
  destruct (truthy v); [destruct (attempt >? 200)|destruct (attempt + 1 >? 200)];
    cbn [events]; auto.
Qed.

Lemma wait_of_cycles E db uid upasswd report_id :
  forall fuel attempt s,
    cls (self s) = NetRpc ->
    database (self s) = Some db ->
    poll_trace E (server (self s)) (port (self s))
               (request_tuple Report "report_get" [db; uid; upasswd; report_id])
               (clock s)
               (events (wait_of NetRpc fuel uid upasswd report_id attempt E s)).
Proof.
  induction fuel as [|fuel IH]; intros attempt s Hc Hdb; [constructor|].
  rewrite wait_of_step. cbv zeta.
  rewrite (poll_of_status NetRpc E s db) by assumption.
  destruct (advance_self s) as (Ac & As & Ap & Adb & Aclock).
  set (msg := request_tuple Report "report_get" [db; uid; upasswd; report_id]).
  assert (Hevs : status_events E (self s) (clock s) db uid upasswd report_id
                 = net_cycle_events E (clock s) (server (self s)) (port (self s)) msg).
  { unfold status_events, events_of. rewrite Hc. reflexivity. }
  pose proof (turn_events NetRpc (status_reply E (self s) (clock s) db uid upasswd report_id)
                (status_events E (self s) (clock s) db uid upasswd report_id)
                attempt (advance s)) as Hturn.
  rewrite turn_final.
  destruct (out (turn NetRpc _ _ attempt (advance s))) as [[[q v] a]|e].
  - destruct (negb (truthy v)); unfold after; cbn [events].
    + specialize (IH a (advance s)). rewrite As, Ap, Aclock in IH.
      assert (I : poll_trace E (server (self s)) (port (self s)) msg (S (clock s))
                    (events (wait_of NetRpc fuel uid upasswd report_id a E (advance s))))
        by (apply IH; congruence).
      destruct Hturn as [-> | ->]; rewrite Hevs.
      * apply poll_trace_cycle. exact I.
      * rewrite <- app_assoc. apply poll_trace_sleep. exact I.
    + rewrite app_nil_r.
      destruct Hturn as [-> | ->]; rewrite Hevs.
      * rewrite <- (app_nil_r (net_cycle_events _ _ _ _ _)).
        apply poll_trace_cycle. constructor.
      * apply poll_trace_sleep. constructor.
  - cbn [events].
    destruct Hturn as [-> | ->]; rewrite Hevs.
    + rewrite <- (app_nil_r (net_cycle_events _ _ _ _ _)).
      apply poll_trace_cycle. constructor.
    + apply poll_trace_sleep. constructor.
Qed.

(** C8, as stated, fails: when the reply of a NetRPC [login] is an error,
    [receive] raises and [_request] is left before [disconnect]; the
    connection is not closed. *)
Lemma request_failure_skips_disconnect :
  let r := _ConnectorNetRPC.login (VStr "db") (VStr "admin") (VStr "wrong")
             (answering (Raise (NetRPCError (VStr "AccessDenied")))) (just_built NetRpc) in
  out r = Raise (LoginError (MUnicode (VStr "AccessDenied"))) /\
  events r = [NetNew;
              NetConnect (VStr "localhost") (VInt 8069);
              NetSend (VTuple [VStr "common"; VStr "login";
                               VStr "db"; VStr "admin"; VStr "wrong"]);
              NetReceive] /\
  ~ In NetDisconnect (events r).
Proof.
  vm_compute. repeat split.
  intros [H|[H|[H|[H|[]]]]]; discriminate.
Qed.

Lemma request_events E s service method args :
  events (_ConnectorNetRPC._request service method args E s)
  = net_cycle_events E (clock s) (server (self s)) (port (self s))
                     (VTuple (VStr service :: VStr method :: args)).
Proof. rewrite request_run. reflexivity. Qed.

Lemma request_out E s service method args :
  out (_ConnectorNetRPC._request service method args E s)
  = net_cycle E (clock s) (server (self s)) (port (self s))
              (VTuple (VStr service :: VStr method :: args)).
Proof. rewrite request_run. reflexivity. Qed.

(** C8, amended.  In the NetRPC class a remote call whose four steps
    succeed performs, in this order, one connect to the server and port of
    the connector, one send of the tuple (service, method, arguments), one
    receive and one disconnect, and returns what was received; a remote
    call returns only in that way.  When connect, send or receive raises,
    the call raises and the later steps, the disconnect included, are not
    performed.  [login] is one such call for service ["common"],
    [execute] and [exec_workflow] one for service ["object"], all with the
    database name as first argument; [report] is one for service
    ["report"], method ["report"], followed when it returns by calls for
    service ["report"], method ["report_get"], one per turn of the loop. *)
Theorem netrpc_request_cycle :
  (forall (E : env) (s : state) (service method : string) (args : list pyval),
      let host := server (self s) in
      let prt := port (self s) in
      let msg := VTuple (VStr service :: VStr method :: args) in
      let r := _ConnectorNetRPC._request service method args E s in
      (net_connect E (clock s) host prt = None ->
       net_send E (clock s) msg = None ->
       net_disconnect E (clock s) = None ->
       forall v, net_receive E (clock s) = Return v ->
       out r = Return v /\
       events r = [NetNew; NetConnect host prt; NetSend msg; NetReceive; NetDisconnect])
      /\
      (forall v, out r = Return v ->
       events r = [NetNew; NetConnect host prt; NetSend msg; NetReceive; NetDisconnect])
      /\
      (net_connect E (clock s) host prt <> None \/
       net_send E (clock s) msg <> None \/
       (exists e, net_receive E (clock s) = Raise e) ->
       (exists e, out r = Raise e) /\ ~ In NetDisconnect (events r)))
  /\
  (forall (E : env) (s : state),
      cls (self s) = NetRpc ->
      (forall dbname user passwd,
          events (login dbname user passwd E s)
          = events (_ConnectorNetRPC._request "common" "login" [dbname; user; passwd]
                      E (with_database dbname s)))
      /\
      (forall db,
          database (self s) = Some db ->
          (forall uid upasswd osv_name method args,
              events (execute uid upasswd osv_name method args E s)
              = events (_ConnectorNetRPC._request "object" "execute"
                          (db :: uid :: upasswd :: osv_name :: method :: args) E s))
          /\
          (forall uid upasswd osv_name signal obj_id,
              events (exec_workflow uid upasswd osv_name signal obj_id E s)
              = events (_ConnectorNetRPC._request "object" "exec_workflow"
                          [db; uid; upasswd; osv_name; signal; obj_id] E s))
          /\
          (forall fuel uid upasswd report_name osv_name obj_id report_type context,
              let submission :=
                _ConnectorNetRPC._request "report" "report"
                  (db :: submit_args uid upasswd report_name osv_name obj_id
                                     report_type context) E s in
              exists rest,
                events (report fuel uid upasswd report_name osv_name obj_id report_type
                               context E s)
                = events submission ++ rest /\
                match out submission with
                | Return report_id =>
                    poll_trace E (server (self s)) (port (self s))
                      (VTuple [VStr "report"; VStr "report_get";
                               db; uid; upasswd; report_id])
                      (S (clock s)) rest
                | Raise _ => rest = []
                end))).
Proof.
  split.
  - intros E s service method args host prt msg r. subst r.
    rewrite request_out, request_events. fold host prt msg.
    unfold net_cycle, net_cycle_events. repeat split.
    + match goal with
      | Hc : net_connect _ _ _ _ = None, Hs : net_send _ _ _ = None,
        Hr : net_receive _ _ = Return _, Hd : net_disconnect _ _ = None |- _ =>
          rewrite Hc, Hs, Hr, Hd
      end. reflexivity.
    + match goal with
      | Hc : net_connect _ _ _ _ = None, Hs : net_send _ _ _ = None,
        Hr : net_receive _ _ = Return _ |- _ =>
          rewrite Hc, Hs, Hr
      end. reflexivity.
    + intros v. destruct (net_connect E (clock s) host prt); [discriminate|].
      destruct (net_send E (clock s) msg); [discriminate|].
      destruct (net_receive E (clock s)); [reflexivity|discriminate].
    + destruct H as [H|[H|(e & H)]].
      * destruct (net_connect E (clock s) host prt) as [e|]; [eauto|congruence].
      * destruct (net_connect E (clock s) host prt) as [e|]; [eauto|].
        destruct (net_send E (clock s) msg) as [e|]; [eauto|congruence].
      * rewrite H.
        destruct (net_connect E (clock s) host prt) as [e'|]; [eauto|].
        destruct (net_send E (clock s) msg) as [e'|]; eauto.
    + destruct H as [H|[H|(e & H)]].
      * destruct (net_connect E (clock s) host prt) as [e|]; [|congruence].
        intros [D|[D|[]]]; discriminate.
      * destruct (net_connect E (clock s) host prt) as [e|];
          [intros [D|[D|[]]]; discriminate|].
        destruct (net_send E (clock s) msg) as [e|]; [|congruence].
        intros [D|[D|[D|[]]]]; discriminate.
      * rewrite H.
        destruct (net_connect E (clock s) host prt) as [e'|];
          [intros [D|[D|[]]]; discriminate|].
        destruct (net_send E (clock s) msg) as [e'|];
          [intros [D|[D|[D|[]]]]; discriminate|].
        intros [D|[D|[D|[D|[]]]]]; discriminate.
  - intros E s Hc. split.
    + intros dbname user passwd. rewrite login_run, request_events.
      destruct (with_database_self dbname s) as (Wc & _ & _ & _ & _).
      unfold one_call, events_of. cbn [events]. rewrite Wc, Hc. reflexivity.
    + intros db Hdb. repeat split.
      * intros. rewrite (execute_run E s db), request_events by assumption.
        unfold one_call, events_of. cbn [events]. rewrite Hc. reflexivity.
      * intros. rewrite (exec_workflow_run E s db), request_events by assumption.
        unfold one_call, events_of. cbn [events]. rewrite Hc. reflexivity.
      * intros fuel uid upasswd report_name osv_name obj_id report_type context submission.
        subst submission. rewrite request_out, request_events.
        rewrite (report_run E s db) by assumption. cbv zeta.
        unfold submit_reply, submit_events, reply_of, events_of. rewrite Hc.
        change (request_tuple Report "report"
                  (db :: submit_args uid upasswd report_name osv_name obj_id
                                     report_type context))
          with (VTuple (VStr "report" :: VStr "report"
                  :: db :: submit_args uid upasswd report_name osv_name obj_id
                                       report_type context)).
        destruct (net_cycle E (clock s) (server (self s)) (port (self s)) _) as [rid|e].
        -- eexists. unfold after. cbn [events]. split; [reflexivity|].
           destruct (advance_self s) as (Ac & As & Ap & Adb & Aclock).
           pose proof (wait_of_cycles E db uid upasswd rid fuel 0 (advance s)) as W.
           rewrite As, Ap, Aclock in W. apply W; congruence.
        -- exists []. cbn [events]. rewrite app_nil_r. split; reflexivity.
Qed.

Lemma netrpc_request_cycle_witness :
  let E := answering (Return (VInt 1)) in
  let r := login (VStr "db") (VStr "admin") (VStr "pw") E (just_built NetRpc) in
  events r
  = [NetNew;
     NetConnect (VStr "localhost") (VInt 8069);
     NetSend (VTuple [VStr "common"; VStr "login"; VStr "db"; VStr "admin"; VStr "pw"]);
     NetReceive;
     NetDisconnect].
Proof.
  intros E r. subst r.
  destruct (proj2 netrpc_request_cycle E (just_built NetRpc) eq_refl) as (Hlogin & _).
  rewrite Hlogin.
  destruct (proj1 netrpc_request_cycle E (with_database (VStr "db") (just_built NetRpc))
              "common" "login" [VStr "db"; VStr "admin"; VStr "pw"]) as (Hcycle & _ & _).
  destruct (Hcycle eq_refl eq_refl eq_refl (VInt 1) eq_refl) as (_ & Hev).
  exact Hev.
Defined.

(** * Further properties of the methods *)

Lemma reply_of_with_database E d s n ep method args :
  reply_of E (self (with_database d s)) n ep method args
  = reply_of E (self s) n ep method args.
Proof. reflexivity. Qed.

Lemma events_of_with_database E d s n ep method args :
  events_of E (self (with_database d s)) n ep method args
  = events_of E (self s) n ep method args.
Proof. reflexivity. Qed.

Lemma login_one_call E s dbname user passwd :
  login dbname user passwd E s
  = mkRun (match reply_of E (self s) (clock s) Common "login" [dbname; user; passwd] with
           | Return v => Return v
           | Raise e => Raise (login_failure (cls (self s)) e)
           end)
          (advance (with_database dbname s))
          (events_of E (self s) (clock s) Common "login" [dbname; user; passwd]).
Proof. rewrite login_run. reflexivity. Qed.

(** ** [login] *)

(** X1.  In both classes [login] makes exactly one remote call, to the
    service [common], method [login], with the database, the user and the
    password in this order, and returns the reply as it is: it returns a
    value exactly when the call does, the same value, whatever it is (a
    falsy user id included), and it never calls again. *)
Theorem login_returns_the_reply :
  forall (E : env) (s : state) (dbname user passwd : pyval),
    let reply := reply_of E (self s) (clock s) Common "login" [dbname; user; passwd] in
    let r := login dbname user passwd E s in
    (forall v, out r = Return v <-> reply = Return v) /\
    (forall e, reply = Raise e -> exists e', out r = Raise e') /\
    events r = events_of E (self s) (clock s) Common "login" [dbname; user; passwd] /\
    clock (final r) = S (clock s).
Proof.
  intros E s dbname user passwd reply r. subst reply r.
  rewrite login_one_call. cbn [out final events].
  destruct (advance_self (with_database dbname s)) as (_ & _ & _ & _ & Aclock).
  repeat split.
  - destruct (reply_of E (self s) (clock s) Common "login" _); [auto|discriminate].
  - intros H. rewrite H. reflexivity.
  - intros e H. rewrite H. eauto.
  - exact Aclock.
Qed.

(** X2.  What [login] raises when its remote call raises.  XML-RPC class:
    a [Fault] becomes [LoginError] on the [repr] of its fault code, a
    [socket.error] becomes [LoginError] on its [strerror], anything else
    goes through unchanged.  NetRPC class: a [NetRPCError] becomes
    [LoginError] on its text, anything else goes through unchanged. *)
Theorem login_error_mapping :
  forall (E : env) (s : state) (dbname user passwd : pyval) (e : pyexc),
    reply_of E (self s) (clock s) Common "login" [dbname; user; passwd] = Raise e ->
    let r := login dbname user passwd E s in
    (cls (self s) = XmlRpc ->
     (forall code text, e = Fault code text -> out r = Raise (LoginError (MRepr code))) /\
     (forall text, e = SocketError text -> out r = Raise (LoginError (MVal text))) /\
     (is_Fault e = false -> is_socket_error e = false -> out r = Raise e))
    /\
    (cls (self s) = NetRpc ->
     (forall detail, e = NetRPCError detail ->
                     out r = Raise (LoginError (MUnicode detail))) /\
     (is_NetRPCError e = false -> out r = Raise e)).
Proof.
  intros E s dbname user passwd e Hreply r. subst r.
  rewrite login_one_call. cbn [out]. rewrite Hreply.
  split; intros Hc; rewrite Hc; unfold login_failure.
  - repeat split.
    + intros code text ->. reflexivity.
    + intros text ->. reflexivity.
    + intros H1 H2. rewrite H1, H2. reflexivity.
  - split.
    + intros detail ->. reflexivity.
    + intros H. destruct e; try reflexivity. discriminate.
Qed.

Lemma login_error_mapping_witness :
  out (login (VStr "db") (VStr "admin") (VStr "wrong")
         (answering (Raise (Fault (VStr "AccessDenied") (VStr "traceback"))))
         (just_built XmlRpc))
  = Raise (LoginError (MRepr (VStr "AccessDenied")))
  /\
  out (login (VStr "db") (VStr "admin") (VStr "wrong")
         (answering (Raise (NetRPCError (VStr "AccessDenied"))))
         (just_built NetRpc))
  = Raise (LoginError (MUnicode (VStr "AccessDenied"))).
Proof.
  split.
  - refine (proj1 (proj1 (login_error_mapping
             (answering (Raise (Fault (VStr "AccessDenied") (VStr "traceback"))))
             (just_built XmlRpc) (VStr "db") (VStr "admin") (VStr "wrong")
             (Fault (VStr "AccessDenied") (VStr "traceback")) eq_refl) eq_refl)
             (VStr "AccessDenied") (VStr "traceback") eq_refl).
  - refine (proj1 (proj2 (login_error_mapping
             (answering (Raise (NetRPCError (VStr "AccessDenied"))))
             (just_built NetRpc) (VStr "db") (VStr "admin") (VStr "wrong")
             (NetRPCError (VStr "AccessDenied")) eq_refl) eq_refl)
             (VStr "AccessDenied") eq_refl).
Defined.

(** A server that answers [False] to a login: the value is returned, no
    error is raised. *)
Lemma login_returns_the_reply_witness :
  out (login (VStr "db") (VStr "admin") (VStr "wrong")
         (answering (Return (VBool false))) (just_built NetRpc))
  = Return (VBool false).
Proof.
  apply (proj1 (login_returns_the_reply (answering (Return (VBool false)))
                 (just_built NetRpc) (VStr "db") (VStr "admin") (VStr "wrong"))).
  reflexivity.
Defined.

(** ** [execute] and [exec_workflow] *)

(** X3.  On a logged-in connector of either class, [execute] and
    [exec_workflow] each make exactly one remote call to the service
    [object], with the stored database first and then their own arguments
    in the order given ([execute] passes its open list of arguments on
    after the method), and return a value exactly when that call does, the
    same value; they never call twice. *)
Theorem execute_is_one_call :
  forall (E : env) (s : state) (db : pyval),
    database (self s) = Some db ->
    (forall uid upasswd osv_name method args,
        let request := db :: uid :: upasswd :: osv_name :: method :: args in
        let r := execute uid upasswd osv_name method args E s in
        (forall v, out r = Return v
                   <-> reply_of E (self s) (clock s) Object "execute" request = Return v) /\
        events r = events_of E (self s) (clock s) Object "execute" request /\
        clock (final r) = S (clock s))
    /\
    (forall uid upasswd osv_name signal obj_id,
        let request := [db; uid; upasswd; osv_name; signal; obj_id] in
        let r := exec_workflow uid upasswd osv_name signal obj_id E s in
        (forall v, out r = Return v
                   <-> reply_of E (self s) (clock s) Object "exec_workflow" request
                       = Return v) /\
        events r = events_of E (self s) (clock s) Object "exec_workflow" request /\
        clock (final r) = S (clock s)).
Proof.
  intros E s db Hdb.
  destruct (advance_self s) as (_ & _ & _ & _ & Aclock).
  split.
  - intros uid upasswd osv_name method args request r. subst request r.
    rewrite (execute_run E s db) by assumption. unfold one_call. cbn [out final events].
    repeat split; try exact Aclock.
    + destruct (reply_of E (self s) (clock s) Object "execute" _); [auto|discriminate].
    + intros H. rewrite H. reflexivity.
  - intros uid upasswd osv_name signal obj_id request r. subst request r.
    rewrite (exec_workflow_run E s db) by assumption. unfold one_call.
    cbn [out final events].
    repeat split; try exact Aclock.
    + destruct (reply_of E (self s) (clock s) Object "exec_workflow" _);
        [auto|discriminate].
    + intros H. rewrite H. reflexivity.
Qed.

Lemma execute_is_one_call_witness :
  let r := execute (VInt 42) (VStr "pw") (VStr "res.partner") (VStr "read")
             [VInt 7; VList [VStr "name"]] (answering (Return (VList [VStr "Agrolait"])))
             (logged_in XmlRpc) in
  out r = Return (VList [VStr "Agrolait"]) /\
  events r = [XmlCall Object "execute"
                [VStr "db"; VInt 42; VStr "pw"; VStr "res.partner"; VStr "read";
                 VInt 7; VList [VStr "name"]]].
Proof.
  intros r. subst r.
  destruct (proj1 (execute_is_one_call (answering (Return (VList [VStr "Agrolait"])))
                     (logged_in XmlRpc) (VStr "db") eq_refl)
              (VInt 42) (VStr "pw") (VStr "res.partner") (VStr "read")
              [VInt 7; VList [VStr "name"]]) as (Hv & He & _).
  split.
  - apply Hv. reflexivity.
  - exact He.
Defined.

(** X4.  What [execute] raises when its remote call raises.  XML-RPC
    class: a [socket.error] becomes [ExecuteError] on its [strerror] and a
    [Fault] becomes [ExecuteError] on its fault code; any other
    [xmlrpclib] error reaches the last clause, which reads [faultCode] on
    an exception that has none, so [AttributeError] is raised and the
    formatted "code: message" text is never produced; anything else goes
    through unchanged.  NetRPC class: a [NetRPCError] becomes
    [ExecuteError] on its text, anything else goes through unchanged. *)
Theorem execute_error_mapping :
  forall (E : env) (s : state) (db uid upasswd osv_name method : pyval)
         (args : list pyval) (e : pyexc),
    database (self s) = Some db ->
    reply_of E (self s) (clock s) Object "execute"
             (db :: uid :: upasswd :: osv_name :: method :: args) = Raise e ->
    let r := execute uid upasswd osv_name method args E s in
    (cls (self s) = XmlRpc ->
     (forall text, e = SocketError text -> out r = Raise (ExecuteError (MVal text))) /\
     (forall code text, e = Fault code text -> out r = Raise (ExecuteError (MVal code))) /\
     (is_xmlrpclib_Error e = true -> is_Fault e = false ->
      out r = Raise (AttributeError "faultCode")) /\
     (is_xmlrpclib_Error e = false -> is_socket_error e = false -> out r = Raise e))
    /\
    (cls (self s) = NetRpc ->
     (forall detail, e = NetRPCError detail ->
                     out r = Raise (ExecuteError (MUnicode detail))) /\
     (is_NetRPCError e = false -> out r = Raise e)).
Proof.
  intros E s db uid upasswd osv_name method args e Hdb Hreply r. subst r.
  rewrite (execute_run E s db) by assumption. unfold one_call. cbn [out].
  rewrite Hreply.
  split; intros Hc; rewrite Hc; unfold execute_failure.
  - repeat split.
    + intros text ->. reflexivity.
    + intros code text ->. reflexivity.
    + intros H1 H2. destruct e; try discriminate; reflexivity.
    + intros H1 H2. destruct e; try discriminate; reflexivity.
  - split.
    + intros detail ->. reflexivity.
    + intros H. destruct e; try reflexivity. discriminate.
Qed.

Lemma execute_error_mapping_witness :
  out (execute (VInt 42) (VStr "pw") (VStr "res.partner") (VStr "unlink") [VInt 7]
         (answering (Raise (Fault (VStr "AccessError") (VStr "traceback"))))
         (logged_in XmlRpc))
  = Raise (ExecuteError (MVal (VStr "AccessError")))
  /\
  out (execute (VInt 42) (VStr "pw") (VStr "res.partner") (VStr "unlink") [VInt 7]
         (answering (Raise ResponseError)) (logged_in XmlRpc))
  = Raise (AttributeError "faultCode").
Proof.
  split.
  - refine (proj1 (proj2 (proj1 (execute_error_mapping
             (answering (Raise (Fault (VStr "AccessError") (VStr "traceback"))))
             (logged_in XmlRpc) (VStr "db") (VInt 42) (VStr "pw") (VStr "res.partner")
             (VStr "unlink") [VInt 7] (Fault (VStr "AccessError") (VStr "traceback"))
             eq_refl eq_refl) eq_refl)) (VStr "AccessError") (VStr "traceback") eq_refl).
  - refine (proj1 (proj2 (proj2 (proj1 (execute_error_mapping
             (answering (Raise ResponseError))
             (logged_in XmlRpc) (VStr "db") (VInt 42) (VStr "pw") (VStr "res.partner")
             (VStr "unlink") [VInt 7] ResponseError
             eq_refl eq_refl) eq_refl))) eq_refl eq_refl).
Defined.

(** ** [report]: a refused submission, a malformed payload, the time slept *)

(** X5.  On a logged-in connector, when the submission call of [report]
    raises, [report] raises at once: that call is the only one made, no
    status poll and no sleep follow.  XML-RPC class: a [Fault] becomes
    [ExecReportError] on its fault code, another [xmlrpclib] error makes
    the clause raise [AttributeError] (it reads [faultCode]), anything
    else goes through unchanged.  NetRPC class: a [NetRPCError] becomes
    [ExecReportError] on its text, anything else goes through. *)
Theorem report_submission_failure :
  forall (E : env) (s : state) (fuel : nat)
         (db uid upasswd report_name osv_name obj_id report_type context : pyval)
         (e : pyexc),
    database (self s) = Some db ->
    submit_reply E (self s) (clock s) db
      (submit_args uid upasswd report_name osv_name obj_id report_type context)
    = Raise e ->
    let r := report fuel uid upasswd report_name osv_name obj_id report_type context E s in
    (events r = submit_events E (self s) (clock s) db
                  (submit_args uid upasswd report_name osv_name obj_id report_type context)
     /\ count is_status_poll (events r) = 0%nat
     /\ count is_sleep (events r) = 0%nat
     /\ clock (final r) = S (clock s))
    /\
    (cls (self s) = XmlRpc ->
     (forall code text, e = Fault code text ->
                        out r = Raise (ExecReportError (MVal code))) /\
     (is_xmlrpclib_Error e = true -> is_Fault e = false ->
      out r = Raise (AttributeError "faultCode")) /\
     (is_xmlrpclib_Error e = false -> out r = Raise e))
    /\
    (cls (self s) = NetRpc ->
     (forall detail, e = NetRPCError detail ->
                     out r = Raise (ExecReportError (MUnicode detail))) /\
     (is_NetRPCError e = false -> out r = Raise e)).
Proof.
  intros E s fuel db uid upasswd report_name osv_name obj_id report_type context e
         Hdb Hsub r. subst r.
  rewrite (report_run E s db) by assumption. cbv zeta. rewrite Hsub.
  cbn [out final events].
  destruct (advance_self s) as (_ & _ & _ & _ & Aclock).
  split; [|split].
  - repeat split.
    + apply submit_events_polls.
    + unfold submit_events. apply events_of_sleeps.
    + exact Aclock.
  - intros Hc. rewrite Hc. unfold submit_failure. repeat split.
    + intros code text ->. reflexivity.
    + intros H1 H2. destruct e; try discriminate; reflexivity.
    + intros H1. rewrite H1. reflexivity.
  - intros Hc. rewrite Hc. unfold submit_failure. split.
    + intros detail ->. reflexivity.
    + intros H. destruct e; try reflexivity. discriminate.
Qed.

Lemma report_submission_failure_witness :
  let r := report 201 (VInt 1) (VStr "pw") (VStr "sale.order") (VStr "sale.order")
             (VInt 4) (VStr "pdf") VNone
             (answering (Raise (NetRPCError (VStr "AccessDenied")))) (logged_in NetRpc) in
  out r = Raise (ExecReportError (MUnicode (VStr "AccessDenied"))) /\
  count is_status_poll (events r) = 0%nat /\
  count is_sleep (events r) = 0%nat.
Proof.
  intros r. subst r.
  destruct (report_submission_failure
              (answering (Raise (NetRPCError (VStr "AccessDenied")))) (logged_in NetRpc)
              201%nat (VStr "db") (VInt 1) (VStr "pw") (VStr "sale.order")
              (VStr "sale.order") (VInt 4) (VStr "pdf") VNone
              (NetRPCError (VStr "AccessDenied")) eq_refl eq_refl)
    as ((_ & Hp & Hs & _) & _ & Hnet).
  split; [|split; assumption].
  exact (proj1 (Hnet eq_refl) (VStr "AccessDenied") eq_refl).
Defined.

Lemma wait_of_bad_payload c E db uid upasswd report_id p x :
  forall (N fuel : nat) (attempt : Z) (s : state),
    cls (self s) = c ->
    database (self s) = Some db ->
    (N < fuel)%nat ->
    attempt + Z.of_nat N <= 200 ->
    (forall n, (clock s <= n < clock s + N)%nat ->
               exists q, status_reply E (self s) n db uid upasswd report_id = Return q
                         /\ ready q = Some false) ->
    status_reply E (self s) (clock s + N) db uid upasswd report_id = Return p ->
    item_state p = Raise x ->
    let r := wait_of c fuel uid upasswd report_id attempt E s in
    out r = Raise x /\ clock (final r) = (clock s + N + 1)%nat.
Proof.
  induction N as [|N IH]; intros fuel attempt s Hc Hdb Hfuel Hatt Hpend Hlast Hitem r;
    subst r; (destruct fuel as [|fuel]; [lia|]);
    rewrite wait_of_step; cbv zeta;
    rewrite (poll_of_status c E s db) by assumption;
    destruct (advance_self s) as (Ac & _ & _ & Adb & Aclock).
  - rewrite Nat.add_0_r in Hlast. rewrite Hlast. unfold turn. rewrite Hitem.
    cbn [out final]. split; [reflexivity|]. rewrite Aclock. lia.
  - destruct (Hpend (clock s)) as (q & Hq & Hrq); [lia|]. rewrite Hq.
    destruct (turn_pending c q
                (status_events E (self s) (clock s) db uid upasswd report_id)
                attempt (advance s) Hrq) as (v & Hv & ->); [lia|].
    cbn [out final events]. rewrite Hv. cbn [negb]. unfold after. cbn [out final].
    destruct (IH fuel (attempt + 1) (advance s)) as (Ho & Hk);
      try congruence; try lia.
    + intros n Hn. rewrite status_reply_advance. apply Hpend. lia.
    + rewrite status_reply_advance, Aclock.
      replace (S (clock s) + N)%nat with (clock s + S N)%nat by lia. exact Hlast.
    + split; [exact Ho|]. rewrite Hk, Aclock. lia.
Qed.

(** X6.  On a logged-in connector of either class whose job was accepted,
    a status payload from which ['state'] cannot be read ends [report] with
    the exception of the subscript, which is not an [ExecReportError]:
    [KeyError] for a dictionary without the key ['state'], [TypeError] for
    a payload that is not a dictionary.  No further poll is made. *)
Theorem report_payload_without_state :
  forall (E : env) (s : state) (N fuel : nat)
         (db uid upasswd report_name osv_name obj_id report_type context : pyval)
         (report_id p : pyval),
    database (self s) = Some db ->
    submit_reply E (self s) (clock s) db
      (submit_args uid upasswd report_name osv_name obj_id report_type context)
    = Return report_id ->
    (forall i, (i < N)%nat ->
               exists q, status_reply E (self s) (clock s + 1 + i) db uid upasswd report_id
                         = Return q /\ ready q = Some false) ->
    status_reply E (self s) (clock s + 1 + N) db uid upasswd report_id = Return p ->
    ready p = None ->
    (N <= 200)%nat ->
    (200 < fuel)%nat ->
    let r := report fuel uid upasswd report_name osv_name obj_id report_type context E s in
    (forall d, p = VDict d -> out r = Raise (KeyError "state")) /\
    ((forall d, p <> VDict d) -> out r = Raise TypeError) /\
    (exists x, out r = Raise x /\ has_kind OpReport x = false) /\
    clock (final r) = (clock s + 1 + S N)%nat.
Proof.
  intros E s N fuel db uid upasswd report_name osv_name obj_id report_type context
         report_id p Hdb Hsub Hpend Hlast Hready HN Hfuel r.
  assert (Hx : exists x, item_state p = Raise x /\ has_kind OpReport x = false /\
                         (forall d, p = VDict d -> x = KeyError "state") /\
                         ((forall d, p <> VDict d) -> x = TypeError)).
  { unfold ready in Hready. unfold item_state in *.
    destruct p as [|b|z|t|l|l|d].
    1-6: exists TypeError; repeat split; intros; discriminate.
    destruct (assoc "state" d) eqn:Hd; [discriminate|].
    exists (KeyError "state"). repeat split.
    intros H. exfalso. exact (H d eq_refl). }
  destruct Hx as (x & Hitem & Hkind & Hkey & Htype).
  subst r. rewrite (report_run E s db) by assumption. cbv zeta. rewrite Hsub.
  destruct (advance_self s) as (Ac & _ & _ & Adb & Aclock).
  destruct (wait_of_bad_payload (cls (self s)) E db uid upasswd report_id p x
              N fuel 0 (advance s)) as (Ho & Hk); try congruence; try lia.
  - intros n Hn. rewrite status_reply_advance.
    replace n with (clock s + 1 + (n - clock s - 1))%nat by lia. apply Hpend. lia.
  - rewrite status_reply_advance, Aclock.
    replace (S (clock s) + N)%nat with (clock s + 1 + N)%nat by lia. exact Hlast.
  - unfold after. cbn [out final]. rewrite Ho. repeat split.
    + intros d Hd. rewrite (Hkey d Hd). reflexivity.
    + intros Hnd. rewrite (Htype Hnd). reflexivity.
    + exists x. split; [reflexivity|exact Hkind].
    + rewrite Hk, Aclock. lia.
Qed.

Lemma report_payload_without_state_witness :
  let r := report 201 (VInt 1) (VStr "pw") (VStr "sale.order") (VStr "sale.order")
             (VInt 4) (VStr "pdf") VNone payload_without_state (logged_in XmlRpc) in
  out r = Raise (KeyError "state") /\ clock (final r) = 2%nat.
Proof.
  intros r. subst r.
  destruct (report_payload_without_state payload_without_state (logged_in XmlRpc)
              0%nat 201%nat (VStr "db") (VInt 1) (VStr "pw") (VStr "sale.order")
              (VStr "sale.order") (VInt 4) (VStr "pdf") VNone (VInt 7)
              (VDict [("result", VStr "JVBERi0=")]))
    as (Hkey & _ & _ & Hk).
  - reflexivity.
  - reflexivity.
  - intros i Hi. lia.
  - reflexivity.
  - reflexivity.
  - lia.
  - lia.
  - split; [exact (Hkey _ eq_refl)|exact Hk].
Defined.

Lemma turn_sleeps c reply evs attempt s' :
  count is_sleep evs = 0%nat ->
  (count is_sleep (events (turn c reply evs attempt s')) <= 1)%nat.
Proof.
  intros H. destruct (turn_events c reply evs attempt s') as [-> | ->].
  - lia.
  - rewrite count_app, H. cbn. lia.
Qed.

Lemma turn_sleeps_one c reply evs attempt s' :
  Forall (fun ev => forall z, ev = Sleep z -> z = 1) evs ->
  Forall (fun ev => forall z, ev = Sleep z -> z = 1)
         (events (turn c reply evs attempt s')).
Proof.
  intros H. destruct (turn_events c reply evs attempt s') as [-> | ->]; [exact H|].
  apply Forall_app. split; [exact H|].
  constructor; [|constructor]. intros z Hz. injection Hz as <-. reflexivity.
Qed.

Lemma events_of_no_sleep E c n ep method args :
  Forall (fun ev => forall z, ev = Sleep z -> z = 1) (events_of E c n ep method args).
Proof.
  unfold events_of. destruct (cls c).
  - constructor; [discriminate|constructor].
  - unfold net_cycle_events.
    destruct (net_connect E n _ _); [repeat constructor; discriminate|].
    destruct (net_send E n _); [repeat constructor; discriminate|].
    destruct (net_receive E n); repeat constructor; discriminate.
Qed.

Lemma wait_of_sleeps c E db uid upasswd report_id :
  forall fuel attempt s,
    cls (self s) = c ->
    database (self s) = Some db ->
    attempt <= 200 ->
    let r := wait_of c fuel uid upasswd report_id attempt E s in
    (count is_sleep (events r) <= Z.to_nat (201 - attempt))%nat /\
    Forall (fun ev => forall z, ev = Sleep z -> z = 1) (events r).
Proof.
  induction fuel as [|fuel IH]; intros attempt s Hc Hdb Ha r; subst r.
  - cbn. split; [lia|constructor].
  - rewrite wait_of_step. cbv zeta.
    rewrite (poll_of_status c E s db) by assumption.
    destruct (advance_self s) as (Ac & _ & _ & Adb & _).
    set (reply := status_reply E (self s) (clock s) db uid upasswd report_id).
    set (evs := status_events E (self s) (clock s) db uid upasswd report_id).
    pose proof (turn_sleeps c reply evs attempt (advance s)
                  (events_of_sleeps _ _ _ _ _ _)) as Hone.
    pose proof (turn_sleeps_one c reply evs attempt (advance s)
                  (events_of_no_sleep _ _ _ _ _ _)) as Hdur.
    rewrite turn_final.
    destruct (out (turn c reply evs attempt (advance s))) as [[[q v] a]|e] eqn:Ho.
    + apply turn_inv in Ho. destruct Ho as (_ & _ & Hle & Hcase).
      destruct Hcase as [(Hv & ->)|(Hv & ->)]; rewrite Hv; cbn [negb];
        unfold after; cbn [events].
      * rewrite app_nil_r. split; [lia|exact Hdur].
      * destruct (IH (attempt + 1) (advance s)) as (I1 & I2); try congruence.
        rewrite count_app. split; [lia|].
        apply Forall_app. split; assumption.
    + cbn [events]. split; [lia|exact Hdur].
Qed.

(** X7.  Whatever the transport answers, [report] sleeps at most 201
    times, one second each time, so at most 201 seconds in all (the 201st
    sleep precedes the test that gives up). *)
Theorem report_sleeps_at_most_201_seconds :
  forall (E : env) (s : state) (fuel : nat)
         (uid upasswd report_name osv_name obj_id report_type context : pyval),
    let r := report fuel uid upasswd report_name osv_name obj_id report_type context E s in
    (count is_sleep (events r) <= 201)%nat /\
    Forall (fun ev => forall z, ev = Sleep z -> z = 1) (events r).
Proof.
  intros E s fuel uid upasswd report_name osv_name obj_id report_type context r. subst r.
  destruct (database (self s)) as [db|] eqn:Hdb.
  - rewrite (report_run E s db) by assumption. cbv zeta.
    destruct (advance_self s) as (Ac & _ & _ & Adb & _).
    destruct (submit_reply E (self s) (clock s) db _) as [rid|e].
    + unfold after. cbn [events].
      destruct (wait_of_sleeps (cls (self s)) E db uid upasswd rid fuel 0 (advance s))
        as (I1 & I2); try congruence; try lia.
      rewrite count_app. unfold submit_events. rewrite events_of_sleeps.
      split; [cbn in I1 |- *; lia|].
      apply Forall_app. split; [apply events_of_no_sleep|exact I2].
    + cbn [events]. unfold submit_events. rewrite events_of_sleeps.
      split; [lia|apply events_of_no_sleep].
  - rewrite report_nodb by assumption. cbn. split; [lia|constructor].
Qed.

Lemma report_sleeps_at_most_201_seconds_witness :
  (count is_sleep
     (events (report 201 (VInt 1) (VStr "pw") (VStr "sale.order") (VStr "sale.order")
                     (VInt 4) (VStr "pdf") VNone never_ready (logged_in NetRpc)))
   <= 201)%nat.
Proof.
  exact (proj1 (report_sleeps_at_most_201_seconds never_ready (logged_in NetRpc) 201%nat
                  (VInt 1) (VStr "pw") (VStr "sale.order") (VStr "sale.order")
                  (VInt 4) (VStr "pdf") VNone)).
Defined.

(** ** What the methods leave on the connector *)

Lemma same_target_refl c : same_target c c.
Proof. unfold same_target. auto. Qed.

Lemma same_target_trans c1 c2 c3 :
  same_target c1 c2 -> same_target c2 c3 -> same_target c1 c3.
Proof.
  unfold same_target. intros (A1 & A2 & A3 & A4) (B1 & B2 & B3 & B4).
  repeat split; congruence.
Qed.

Lemma advance_same_target s :
  same_target (self s) (self (advance s)) /\
  (cls (self s) = XmlRpc -> sock (self (advance s)) = sock (self s)).
Proof.
  unfold same_target, advance. destruct (cls (self s)) eqn:Hc; cbn; repeat split; auto.
  discriminate.
Qed.

Lemma with_database_same_target d s :
  same_target (self s) (self (with_database d s)) /\
  sock (self (with_database d s)) = sock (self s).
Proof. unfold same_target, with_database. cbn. auto. Qed.

Lemma wait_of_same_target c E uid upasswd report_id :
  forall fuel attempt s,
    cls (self s) = c ->
    let r := wait_of c fuel uid upasswd report_id attempt E s in
    same_target (self s) (self (final r)) /\
    (c = XmlRpc -> sock (self (final r)) = sock (self s)).
Proof.
  induction fuel as [|fuel IH]; intros attempt s Hc r; subst r.
  - cbn. split; [apply same_target_refl|reflexivity].
  - rewrite wait_of_step. cbv zeta.
    destruct (database (self s)) as [db|] eqn:Hdb.
    + rewrite (poll_of_status c E s db) by assumption. rewrite turn_final.
      destruct (advance_same_target s) as (At & As).
      destruct (advance_self s) as (Ac & _).
      destruct (out (turn c _ _ attempt (advance s))) as [[[q v] a]|e].
      * destruct (negb (truthy v)); unfold after; cbn [final].
        -- destruct (IH a (advance s)) as (I1 & I2); [congruence|].
           split; [exact (same_target_trans _ _ _ At I1)|].
           intros Hx. rewrite (I2 Hx). apply As. congruence.
        -- split; [exact At|]. intros Hx. apply As. congruence.
      * cbn [final]. rewrite ?turn_final.
        split; [exact At|]. intros Hx. apply As. congruence.
    + rewrite poll_of_nodb by assumption. cbn [out final].
      split; [apply same_target_refl|reflexivity].
Qed.

(** X8.  No method changes the class, the server, the port or the URL of
    the connector, whatever the transport does and whether or not [login]
    was called: a connector keeps talking to the server it was built for.
    On an XML-RPC connector the [sock] attribute is never touched. *)
Theorem methods_keep_the_target :
  forall (E : env) (s : state),
    (forall dbname user passwd,
        let r := login dbname user passwd E s in
        same_target (self s) (self (final r)) /\
        (cls (self s) = XmlRpc -> sock (self (final r)) = sock (self s)))
    /\
    (forall uid upasswd osv_name method args,
        let r := execute uid upasswd osv_name method args E s in
        same_target (self s) (self (final r)) /\
        (cls (self s) = XmlRpc -> sock (self (final r)) = sock (self s)))
    /\
    (forall uid upasswd osv_name signal obj_id,
        let r := exec_workflow uid upasswd osv_name signal obj_id E s in
        same_target (self s) (self (final r)) /\
        (cls (self s) = XmlRpc -> sock (self (final r)) = sock (self s)))
    /\
    (forall fuel uid upasswd report_name osv_name obj_id report_type context,
        let r := report fuel uid upasswd report_name osv_name obj_id report_type
                        context E s in
        same_target (self s) (self (final r)) /\
        (cls (self s) = XmlRpc -> sock (self (final r)) = sock (self s))).
Proof.
  intros E s.
  destruct (advance_same_target s) as (At & As).
  split; [|split; [|split]].
  - intros dbname user passwd r. subst r. rewrite login_one_call. cbn [final].
    destruct (with_database_same_target dbname s) as (Wt & Ws).
    destruct (advance_same_target (with_database dbname s)) as (Bt & Bs).
    split; [exact (same_target_trans _ _ _ Wt Bt)|].
    intros Hx. rewrite Bs; [exact Ws|exact Hx].
  - intros uid upasswd osv_name method args r. subst r.
    destruct (database (self s)) as [db|] eqn:Hdb.
    + rewrite (execute_run E s db) by assumption. cbn [one_call final]. auto.
    + rewrite execute_nodb by assumption. cbn [final].
      split; [apply same_target_refl|reflexivity].
  - intros uid upasswd osv_name signal obj_id r. subst r.
    destruct (database (self s)) as [db|] eqn:Hdb.
    + rewrite (exec_workflow_run E s db) by assumption. cbn [one_call final]. auto.
    + rewrite exec_workflow_nodb by assumption. cbn [final].
      split; [apply same_target_refl|reflexivity].
  - intros fuel uid upasswd report_name osv_name obj_id report_type context r. subst r.
    destruct (database (self s)) as [db|] eqn:Hdb.
    + rewrite (report_run E s db) by assumption. cbv zeta.
      destruct (submit_reply E (self s) (clock s) db _) as [rid|e].
      * unfold after. cbn [final].
        destruct (advance_self s) as (Ac & _).
        destruct (wait_of_same_target (cls (self s)) E uid upasswd rid fuel 0 (advance s))
          as (I1 & I2); [congruence|].
        split; [exact (same_target_trans _ _ _ At I1)|].
        intros Hx. rewrite (I2 Hx). apply As. exact Hx.
      * cbn [final]. auto.
    + rewrite report_nodb by assumption. cbn [final].
      split; [apply same_target_refl|reflexivity].
Qed.

Lemma methods_keep_the_target_witness :
  let r := report 201 (VInt 1) (VStr "pw") (VStr "sale.order") (VStr "sale.order")
             (VInt 4) (VStr "pdf") VNone ready_at_third (logged_in XmlRpc) in
  server (self (final r)) = VStr "localhost" /\
  port (self (final r)) = VInt 8069 /\
  sock (self (final r)) = None.
Proof.
  intros r. subst r.
  destruct (proj2 (proj2 (proj2 (methods_keep_the_target ready_at_third
                                   (logged_in XmlRpc))))
              201%nat (VInt 1) (VStr "pw") (VStr "sale.order") (VStr "sale.order")
              (VInt 4) (VStr "pdf") VNone) as ((_ & Hs & Hp & _) & Hk).
  split; [exact Hs|]. split; [exact Hp|]. exact (Hk eq_refl).
Defined.

(** ** The calls of the XML-RPC [report] *)

Lemma xmlrpc_wait_events E db uid upasswd report_id :
  forall fuel attempt s,
    cls (self s) = XmlRpc ->
    database (self s) = Some db ->
    Forall (fun ev => ev = XmlCall Report "report_get" [db; uid; upasswd; report_id]
                      \/ ev = Sleep 1)
           (events (wait_of XmlRpc fuel uid upasswd report_id attempt E s)).
Proof.
  induction fuel as [|fuel IH]; intros attempt s Hc Hdb; [constructor|].
  rewrite wait_of_step. cbv zeta.
  rewrite (poll_of_status XmlRpc E s db) by assumption.
  destruct (advance_self s) as (Ac & _ & _ & Adb & _).
  assert (Hevs : status_events E (self s) (clock s) db uid upasswd report_id
                 = [XmlCall Report "report_get" [db; uid; upasswd; report_id]]).
  { unfold status_events, events_of. rewrite Hc. reflexivity. }
  assert (Hturn : forall reply,
             Forall (fun ev => ev = XmlCall Report "report_get" [db; uid; upasswd; report_id]
                               \/ ev = Sleep 1)
                    (events (turn XmlRpc reply
                               (status_events E (self s) (clock s) db uid upasswd report_id)
                               attempt (advance s)))).
  { intros reply.
    destruct (turn_events XmlRpc reply
                (status_events E (self s) (clock s) db uid upasswd report_id)
                attempt (advance s)) as [-> | ->]; rewrite Hevs; cbn [app].
    - constructor; [left; reflexivity|constructor].
    - constructor; [left; reflexivity|].
      constructor; [right; reflexivity|constructor]. }
  specialize (Hturn (status_reply E (self s) (clock s) db uid upasswd report_id)).
  rewrite turn_final.
  destruct (out (turn XmlRpc _ _ attempt (advance s))) as [[[q v] a]|e].
  - destruct (negb (truthy v)); unfold after; cbn [events].
    + apply Forall_app. split; [exact Hturn|]. apply IH; congruence.
    + rewrite app_nil_r. exact Hturn.
  - exact Hturn.
Qed.

(** X9.  On a logged-in XML-RPC connector [report] first calls [report]
    on the report handle with the database, the user id, the password, the
    report name, the one-element list of the object id, the dictionary of
    model, id and report type, and the context ([{}] when [None] was
    given).  Whatever the transport does afterwards, everything that
    follows is a call of [report_get] on the same handle with the
    database, the user id, the password and the job identifier this first
    call returned, or a sleep of one second; nothing follows when the
    first call raises. *)
Theorem xmlrpc_report_calls :
  forall (E : env) (s : state) (fuel : nat)
         (db uid upasswd report_name osv_name obj_id report_type context : pyval),
    cls (self s) = XmlRpc ->
    database (self s) = Some db ->
    let submission :=
      [db; uid; upasswd; report_name; VList [obj_id];
       VDict [("model", osv_name); ("id", obj_id); ("report_type", report_type)];
       match context with VNone => VDict [] | _ => context end] in
    let r := report fuel uid upasswd report_name osv_name obj_id report_type context E s in
    exists rest,
      events r = XmlCall Report "report" submission :: rest /\
      match xml_reply E (clock s) Report "report" submission with
      | Return report_id =>
          Forall (fun ev => ev = XmlCall Report "report_get" [db; uid; upasswd; report_id]
                            \/ ev = Sleep 1) rest
      | Raise _ => rest = []
      end.
Proof.
  intros E s fuel db uid upasswd report_name osv_name obj_id report_type context
         Hc Hdb submission r. subst submission r.
  rewrite (report_run E s db) by assumption. cbv zeta.
  unfold submit_reply, submit_events, reply_of, events_of. rewrite Hc.
  unfold submit_args, report_data, default_context.
  destruct (xml_reply E (clock s) Report "report" _) as [rid|e].
  - eexists. unfold after. cbn [events app]. split; [reflexivity|].
    destruct (advance_self s) as (Ac & _ & _ & Adb & _).
    apply xmlrpc_wait_events; congruence.
  - exists []. split; reflexivity.
Qed.

Lemma xmlrpc_report_calls_witness :
  events (report 201 (VInt 1) (VStr "pw") (VStr "sale.order") (VStr "sale.order")
                 (VInt 4) (VStr "pdf") VNone
                 (answering (Raise (Fault (VStr "AccessDenied") (VStr "traceback"))))
                 (logged_in XmlRpc))
  = [XmlCall Report "report"
       [VStr "db"; VInt 1; VStr "pw"; VStr "sale.order"; VList [VInt 4];
        VDict [("model", VStr "sale.order"); ("id", VInt 4); ("report_type", VStr "pdf")];
        VDict []]].
Proof.
  destruct (xmlrpc_report_calls
              (answering (Raise (Fault (VStr "AccessDenied") (VStr "traceback"))))
              (logged_in XmlRpc) 201%nat (VStr "db") (VInt 1) (VStr "pw")
              (VStr "sale.order") (VStr "sale.order") (VInt 4) (VStr "pdf") VNone
              eq_refl eq_refl) as (rest & Hev & Hrest).
  cbn in Hrest. rewrite Hev, Hrest. reflexivity.
Defined.

(** ** The port of a new connector *)

(** X10.  For a registered protocol, [get_connector] accepts a port given
    as an integer, and a port given as text exactly when the text reads as
    an integer; the port is stored as it was given, text staying text.  A
    text that does not read as an integer is refused with
    [ConnectorError], whose message is built from that port. *)
Theorem get_connector_checks_the_port :
  forall (srv : pyval) (protocol : string) (c : variant),
    assoc protocol connectors = Some c ->
    (forall z, exists conn,
        get_connector srv (VInt z) protocol = Return conn /\
        cls conn = c /\ server conn = srv /\ port conn = VInt z)
    /\
    (forall text z, int_of_str text = Some z ->
        exists conn,
          get_connector srv (VStr text) protocol = Return conn /\
          cls conn = c /\ server conn = srv /\ port conn = VStr text)
    /\
    (forall text, int_of_str text = None ->
        get_connector srv (VStr text) protocol
        = Raise (ConnectorError
                   (MFormat "The port '{0}' is invalid. An integer is required."
                            [VStr text]))).
Proof.
  intros srv protocol c Hp. unfold get_connector. rewrite Hp.
  split; [|split].
  - intros z.
    destruct (init_accepts_int_port srv (VInt z) c z eq_refl) as (conn & Hc & Hport & Hs).
    exists conn. destruct (init_stores _ _ _ _ Hc) as (Hcls & _). auto.
  - intros text z Hz.
    assert (Hi : py_int (VStr text) = IntOk z) by (cbn; rewrite Hz; reflexivity).
    destruct (init_accepts_int_port srv (VStr text) c z Hi) as (conn & Hc & Hport & Hs).
    exists conn. destruct (init_stores _ _ _ _ Hc) as (Hcls & _). auto.
  - intros text Hz. apply init_refuses_value_error. cbn. rewrite Hz. reflexivity.
Qed.

Lemma get_connector_checks_the_port_witness :
  (exists conn,
      get_connector (VStr "localhost") (VStr " 8070 ") "netrpc" = Return conn /\
      cls conn = NetRpc /\ server conn = VStr "localhost" /\ port conn = VStr " 8070 ")
  /\
  get_connector (VStr "localhost") (VStr "80a") "xmlrpc"
  = Raise (ConnectorError
             (MFormat "The port '{0}' is invalid. An integer is required." [VStr "80a"])).
Proof.
  split.
  - exact (proj1 (proj2 (get_connector_checks_the_port (VStr "localhost") "netrpc" NetRpc
                           eq_refl)) " 8070 " 8070 eq_refl).
  - exact (proj2 (proj2 (get_connector_checks_the_port (VStr "localhost") "xmlrpc" XmlRpc
                           eq_refl)) "80a" eq_refl).
Defined.

(** ** Remote faults *)

Lemma remote_fault_inv c e :
  remote_fault c e = true ->
  (c = XmlRpc /\ exists code text, e = Fault code text) \/
  (c = NetRpc /\ exists detail, e = NetRPCError detail).
Proof.
  destruct c; destruct e; cbn; try discriminate; intros _; [left|right]; eauto.
Qed.

(** X11.  A remote fault ([xmlrpclib.Fault] in the XML-RPC class,
    [NetRPCError] in the NetRPC class) raised by the remote call of a
    method always leaves the method as the error kind of that method:
    [LoginError] for [login], [ExecuteError] for [execute],
    [ExecWorkflowError] for [exec_workflow], and [ExecReportError] for
    [report], at the submission as at any status poll. *)
Theorem remote_faults_are_typed :
  forall (E : env) (s : state) (e : pyexc),
    remote_fault (cls (self s)) e = true ->
    (forall dbname user passwd,
        reply_of E (self s) (clock s) Common "login" [dbname; user; passwd] = Raise e ->
        raises_kind OpLogin (out (login dbname user passwd E s)) = true)
    /\
    (forall db,
        database (self s) = Some db ->
        (forall uid upasswd osv_name method args,
            reply_of E (self s) (clock s) Object "execute"
                     (db :: uid :: upasswd :: osv_name :: method :: args) = Raise e ->
            raises_kind OpExecute (out (execute uid upasswd osv_name method args E s))
            = true)
        /\
        (forall uid upasswd osv_name signal obj_id,
            reply_of E (self s) (clock s) Object "exec_workflow"
                     [db; uid; upasswd; osv_name; signal; obj_id] = Raise e ->
            raises_kind OpExecWorkflow
                        (out (exec_workflow uid upasswd osv_name signal obj_id E s))
            = true)
        /\
        (forall fuel uid upasswd report_name osv_name obj_id report_type context,
            submit_reply E (self s) (clock s) db
              (submit_args uid upasswd report_name osv_name obj_id report_type context)
            = Raise e ->
            raises_kind OpReport
              (out (report fuel uid upasswd report_name osv_name obj_id report_type
                           context E s))
            = true)
        /\
        (forall (N fuel : nat) uid upasswd report_name osv_name obj_id report_type context
                report_id,
            submit_reply E (self s) (clock s) db
              (submit_args uid upasswd report_name osv_name obj_id report_type context)
            = Return report_id ->
            (forall i, (i < N)%nat ->
                       exists p, status_reply E (self s) (clock s + 1 + i)
                                              db uid upasswd report_id = Return p
                                 /\ ready p = Some false) ->
            status_reply E (self s) (clock s + 1 + N) db uid upasswd report_id = Raise e ->
            (N <= 200)%nat ->
            (200 < fuel)%nat ->
            raises_kind OpReport
              (out (report fuel uid upasswd report_name osv_name obj_id report_type
                           context E s))
            = true)).
Proof.
  intros E s e Hfault.
  assert (Hcaught : caught (cls (self s)) e = true).
  { destruct (remote_fault_inv _ _ Hfault) as [(-> & c & t & ->)|(-> & d & ->)];
      reflexivity. }
  split.
  - intros dbname user passwd Hreply. rewrite login_one_call. cbn [out]. rewrite Hreply.
    destruct (remote_fault_inv _ _ Hfault) as [(-> & c & t & ->)|(-> & d & ->)];
      reflexivity.
  - intros db Hdb. split; [|split; [|split]].
    + intros uid upasswd osv_name method args Hreply.
      rewrite (execute_run E s db) by assumption. unfold one_call. cbn [out].
      rewrite Hreply.
      destruct (remote_fault_inv _ _ Hfault) as [(-> & c & t & ->)|(-> & d & ->)];
        reflexivity.
    + intros uid upasswd osv_name signal obj_id Hreply.
      rewrite (exec_workflow_run E s db) by assumption. unfold one_call. cbn [out].
      rewrite Hreply.
      destruct (remote_fault_inv _ _ Hfault) as [(-> & c & t & ->)|(-> & d & ->)];
        reflexivity.
    + intros fuel uid upasswd report_name osv_name obj_id report_type context Hreply.
      rewrite (report_run E s db) by assumption. cbv zeta. rewrite Hreply. cbn [out].
      destruct (remote_fault_inv _ _ Hfault) as [(-> & c & t & ->)|(-> & d & ->)];
        reflexivity.
    + intros N fuel uid upasswd report_name osv_name obj_id report_type context
             report_id Hsub Hpend Hlast HN Hfuel.
      destruct (report_poll_failure E s N fuel db uid upasswd report_name osv_name
                  obj_id report_type context report_id e Hdb Hsub Hpend Hlast HN Hfuel)
        as (Ho & _).
      rewrite Ho, Hcaught. reflexivity.
Qed.

Lemma remote_faults_are_typed_witness :
  let denied := Fault (VStr "AccessDenied") (VStr "traceback") in
  raises_kind OpLogin
    (out (login (VStr "db") (VStr "admin") (VStr "wrong") (answering (Raise denied))
                (logged_in XmlRpc))) = true
  /\
  raises_kind OpReport
    (out (report 201 (VInt 1) (VStr "pw") (VStr "sale.order") (VStr "sale.order")
                 (VInt 4) (VStr "pdf") VNone (answering (Raise denied))
                 (logged_in XmlRpc))) = true.
Proof.
  intros denied.
  destruct (remote_faults_are_typed (answering (Raise denied)) (logged_in XmlRpc) denied
              eq_refl) as (Hlogin & Hrest).
  destruct (Hrest (VStr "db") eq_refl) as (_ & _ & Hsub & _).
  split.
  - exact (Hlogin (VStr "db") (VStr "admin") (VStr "wrong") eq_refl).
  - exact (Hsub 201%nat (VInt 1) (VStr "pw") (VStr "sale.order") (VStr "sale.order")
                (VInt 4) (VStr "pdf") VNone eq_refl).
Defined.

(** ** The steps of a NetRPC request *)

(** X12.  [_request] runs connect, send, receive and disconnect in this
    order and stops at the first step that raises, leaving with the
    exception of that step: nothing is sent when connect raises, nothing
    is received when send raises.  When disconnect raises after a reply
    was received, the reply is lost and the call raises. *)
Theorem request_stops_at_first_failure :
  forall (E : env) (s : state) (service method : string) (args : list pyval),
    let host := server (self s) in
    let prt := port (self s) in
    let msg := VTuple (VStr service :: VStr method :: args) in
    let r := _ConnectorNetRPC._request service method args E s in
    (forall e, net_connect E (clock s) host prt = Some e ->
               out r = Raise e /\ events r = [NetNew; NetConnect host prt])
    /\
    (forall e, net_connect E (clock s) host prt = None ->
               net_send E (clock s) msg = Some e ->
               out r = Raise e /\ events r = [NetNew; NetConnect host prt; NetSend msg])
    /\
    (forall e, net_connect E (clock s) host prt = None ->
               net_send E (clock s) msg = None ->
               net_receive E (clock s) = Raise e ->
               out r = Raise e /\
               events r = [NetNew; NetConnect host prt; NetSend msg; NetReceive])
    /\
    (forall v e, net_connect E (clock s) host prt = None ->
                 net_send E (clock s) msg = None ->
                 net_receive E (clock s) = Return v ->
                 net_disconnect E (clock s) = Some e ->
                 out r = Raise e /\
                 events r = [NetNew; NetConnect host prt; NetSend msg; NetReceive;
                             NetDisconnect]).
Proof.
  intros E s service method args host prt msg r. subst r.
  rewrite request_out, request_events. fold host prt msg.
  unfold net_cycle, net_cycle_events.
  split; [|split; [|split]].
  - intros e Hc. rewrite Hc. split; reflexivity.
  - intros e Hc Hs. rewrite Hc, Hs. split; reflexivity.
  - intros e Hc Hs Hr. rewrite Hc, Hs, Hr. split; reflexivity.
  - intros v e Hc Hs Hr Hd. rewrite Hc, Hs, Hr, Hd. split; reflexivity.
Qed.

Lemma request_stops_at_first_failure_witness :
  let E := mkEnv (fun _ _ _ _ => Return VNone)
                 (fun _ _ _ => None) (fun _ _ => None)
                 (fun _ => Return (VInt 42))
                 (fun _ => Some (SocketError (VStr "Transport endpoint is not connected"))) in
  let r := _ConnectorNetRPC._request "common" "login"
             [VStr "db"; VStr "admin"; VStr "pw"] E (just_built NetRpc) in
  out r = Raise (SocketError (VStr "Transport endpoint is not connected")).
Proof.
  intros E r. subst r.
  exact (proj1 (proj2 (proj2 (proj2 (request_stops_at_first_failure E (just_built NetRpc)
                 "common" "login" [VStr "db"; VStr "admin"; VStr "pw"])))
                 (VInt 42) (SocketError (VStr "Transport endpoint is not connected"))
                 eq_refl eq_refl eq_refl eq_refl)).
Defined.

(** ** [exec_workflow] and the status poll: what is caught *)

(** X13.  What [exec_workflow] raises when its remote call raises.
    XML-RPC class: every exception derived from [Exception] becomes
    [ExecWorkflowError] with the fixed message; an exception that is not
    (the errors of this module derive from [BaseException]) goes through
    unchanged.  NetRPC class: only [NetRPCError] becomes
    [ExecWorkflowError]; anything else, a [socket.error] for one, goes
    through unchanged. *)
Theorem exec_workflow_error_mapping :
  forall (E : env) (s : state) (db uid upasswd osv_name signal obj_id : pyval) (e : pyexc),
    database (self s) = Some db ->
    reply_of E (self s) (clock s) Object "exec_workflow"
             [db; uid; upasswd; osv_name; signal; obj_id] = Raise e ->
    let r := exec_workflow uid upasswd osv_name signal obj_id E s in
    (cls (self s) = XmlRpc ->
     (is_Exception e = true -> out r = Raise (ExecWorkflowError workflow_failed)) /\
     (is_Exception e = false -> out r = Raise e))
    /\
    (cls (self s) = NetRpc ->
     (is_NetRPCError e = true -> out r = Raise (ExecWorkflowError workflow_failed)) /\
     (is_NetRPCError e = false -> out r = Raise e)).
Proof.
  intros E s db uid upasswd osv_name signal obj_id e Hdb Hreply r. subst r.
  rewrite (exec_workflow_run E s db) by assumption. unfold one_call. cbn [out].
  rewrite Hreply.
  split; intros Hc; rewrite Hc; unfold workflow_failure; split; intros H; rewrite H;
    reflexivity.
Qed.

Lemma exec_workflow_error_mapping_witness :
  out (exec_workflow (VInt 1) (VStr "pw") (VStr "sale.order") (VStr "order_confirm")
         (VInt 4) (answering (Raise (SocketError (VStr "Connection refused"))))
         (logged_in NetRpc))
  = Raise (SocketError (VStr "Connection refused")).
Proof.
  exact (proj2 (proj2 (exec_workflow_error_mapping
                 (answering (Raise (SocketError (VStr "Connection refused"))))
                 (logged_in NetRpc) (VStr "db") (VInt 1) (VStr "pw") (VStr "sale.order")
                 (VStr "order_confirm") (VInt 4) (SocketError (VStr "Connection refused"))
                 eq_refl eq_refl) eq_refl) eq_refl).
Defined.

(** X14.  On a logged-in connector whose job was accepted, a status poll
    that raises ends [report] at that poll, after any number of pending
    polls: no further call is made.  An error of the class the loop
    catches ([xmlrpclib.Error] in the XML-RPC class, [NetRPCError] in the
    NetRPC class) becomes [ExecReportError] with the fixed download
    message, whatever its detail; any other exception goes through
    unchanged. *)
Theorem report_poll_exception :
  forall (E : env) (s : state) (N fuel : nat)
         (db uid upasswd report_name osv_name obj_id report_type context : pyval)
         (report_id : pyval) (e : pyexc),
    database (self s) = Some db ->
    submit_reply E (self s) (clock s) db
      (submit_args uid upasswd report_name osv_name obj_id report_type context)
    = Return report_id ->
    (forall i, (i < N)%nat ->
               exists p, status_reply E (self s) (clock s + 1 + i) db uid upasswd report_id
                         = Return p /\ ready p = Some false) ->
    status_reply E (self s) (clock s + 1 + N) db uid upasswd report_id = Raise e ->
    (N <= 200)%nat ->
    (200 < fuel)%nat ->
    let r := report fuel uid upasswd report_name osv_name obj_id report_type context E s in
    (caught (cls (self s)) e = true ->
     out r = Raise (ExecReportError
                      (MLit "Unknown error occurred during the download of the report.")))
    /\
    (caught (cls (self s)) e = false -> out r = Raise e)
    /\
    clock (final r) = (clock s + 1 + S N)%nat.
Proof.
  intros E s N fuel db uid upasswd report_name osv_name obj_id report_type context
         report_id e Hdb Hsub Hpend Hlast HN Hfuel r. subst r.
  destruct (report_poll_failure E s N fuel db uid upasswd report_name osv_name
              obj_id report_type context report_id e Hdb Hsub Hpend Hlast HN Hfuel)
    as (Ho & Hk).
  rewrite Ho. repeat split; try exact Hk; intros H; rewrite H; reflexivity.
Qed.

Lemma report_poll_exception_witness :
  let E := scripted (fun n => match n with
                              | O => Return (VInt 7)
                              | 1%nat => Return pending_payload
                              | _ => Raise (NetRPCError (VStr "server shutting down"))
                              end) in
  let r := report 201 (VInt 1) (VStr "pw") (VStr "sale.order") (VStr "sale.order")
             (VInt 4) (VStr "pdf") VNone E (logged_in NetRpc) in
  out r = Raise (ExecReportError
                   (MLit "Unknown error occurred during the download of the report."))
  /\ clock (final r) = 3%nat.
Proof.
  intros E r. subst r.
  destruct (report_poll_exception E (logged_in NetRpc) 1%nat 201%nat
              (VStr "db") (VInt 1) (VStr "pw") (VStr "sale.order") (VStr "sale.order")
              (VInt 4) (VStr "pdf") VNone (VInt 7)
              (NetRPCError (VStr "server shutting down")))
    as (Hcaught & _ & Hk).
  - reflexivity.
  - reflexivity.
  - intros i Hi. exists pending_payload.
    destruct i as [|i]; [split; reflexivity|lia].
  - reflexivity.
  - lia.
  - lia.
  - split; [exact (Hcaught eq_refl)|exact Hk].
Defined.
